(** * coraserver: the HTTP handlers of [main.go], embedded and verified

    The Go program is a small HTTP server: five handlers behind a
    [ServeMux], an OAuth configuration loaded by [init], and three
    collaborators it only calls (the identity provider, the Graph API and
    the [db] package).  The embedding keeps the shape of the source:

    - Go strings are byte strings, here [string] (a list of [ascii]);
    - Go [int] is [Z]; the only place where its width matters is
      [strconv.Atoi], which rejects values outside the 64-bit range;
    - a Go slice is either [nil] or a sequence of elements: [slice A];
    - a pair [(value, error)] is a [result]; an [error] is kept as the text
      of its [Error()] method, which is all the handlers ever use;
    - [http.Header] and [url.Values] are [map[string][]string], here
      [gmap string (list string)];
    - the [http.ResponseWriter] is passed explicitly, as the source passes
      [w], and every call into a collaborator is recorded in a trace. *)

From Stdlib Require Import ZArith String Ascii List Bool Lia.
From Stdlib Require Import DecimalString.
From Stdlib Require DecimalPos.
From stdpp Require Import base gmap strings list sorting.

Local Open Scope Z_scope.

(** ** Values shared by all packages *)

(** The text of a Go [error]. *)
Definition error : Type := string.

Inductive result (E A : Type) : Type :=
| Ok (a : A)
| Err (e : E).
Arguments Ok {E A} a.
Arguments Err {E A} e.

(** A slice is [nil] ([None]) or holds its elements; [Some []] is the empty
    non-nil slice ([make([]T, 0)] or [[]T{}]).  [encoding/json] tells the two
    apart. *)
Definition slice (A : Type) : Type := option (list A).

Definition byte_val (c : ascii) : Z := Z.of_N (N_of_ascii c).

Definition byte_of (n : Z) : ascii := ascii_of_N (Z.to_N n).

Definition dquote : ascii := "034"%char.
Definition backslash : ascii := "092"%char.
Definition newline : string := String "010"%char EmptyString.

Fixpoint string_of_bytes (l : list ascii) : string :=
  match l with
  | [] => EmptyString
  | c :: r => String c (string_of_bytes r)
  end.

Fixpoint bytes_of_string (s : string) : list ascii :=
  match s with
  | EmptyString => []
  | String c r => c :: bytes_of_string r
  end.

(** [strings.Join]. *)
Fixpoint Join (elems : list string) (sep : string) : string :=
  match elems with
  | [] => EmptyString
  | [x] => x
  | x :: r => x +:+ sep +:+ Join r sep
  end.

(** [strings.Contains(s, substr)]. *)
Fixpoint Contains (s substr : string) : bool :=
  String.prefix substr s ||
  match s with
  | EmptyString => false
  | String _ r => Contains r substr
  end.

(** ** Package strconv *)

Module strconv.

Inductive numErrKind := ErrSyntax | ErrRange.

(** [*strconv.NumError]. *)
Record NumError := { Func : string; Num : string; Kind : numErrKind }.

(** [int] is 64 bits wide on the platforms the server is built for. *)
Definition intSize : Z := 64.
Definition maxUint64 : Z := 2 ^ 64 - 1.

Definition digit (c : ascii) : option Z :=
  let n := byte_val c in
  if (48 <=? n) && (n <=? 57) then Some (n - 48) else None.

(** The loop of [ParseUint(s, 10, 64)]: a byte that is no decimal digit is a
    syntax error, and the scan stops with a range error as soon as the
    accumulator leaves [uint64]. *)
Fixpoint parseUintLoop (s : string) (n : Z) : result numErrKind Z :=
  match s with
  | EmptyString => Ok n
  | String c r =>
      match digit c with
      | None => Err ErrSyntax
      | Some d =>
          if maxUint64 / 10 + 1 <=? n then Err ErrRange
          else if maxUint64 <? n * 10 + d then Err ErrRange
          else parseUintLoop r (n * 10 + d)
      end
  end.

(** [ParseInt(s, 10, 0)]: an optional sign, at least one digit, and the
    value within [int]. *)
Definition parseInt (s : string) : result numErrKind Z :=
  match s with
  | EmptyString => Err ErrSyntax
  | String c r =>
      let neg := Ascii.eqb c "-" in
      let digits := if neg || Ascii.eqb c "+" then r else s in
      match digits with
      | EmptyString => Err ErrSyntax
      | _ =>
          match parseUintLoop digits 0 with
          | Err k => Err k
          | Ok un =>
              let cutoff := 2 ^ (intSize - 1) in
              if negb neg && (cutoff <=? un) then Err ErrRange
              else if neg && (cutoff <? un) then Err ErrRange
              else Ok (if neg then - un else un)
          end
      end
  end.

(** [strconv.Atoi]: its fast path for short inputs computes the same value
    and reports the same errors as [ParseInt(s, 10, 0)]. *)
Definition Atoi (s : string) : result NumError Z :=
  match parseInt s with
  | Ok n => Ok n
  | Err k => Err {| Func := "Atoi"; Num := s; Kind := k |}
  end.

(** [strconv.FormatInt(i, 10)], the decimal text [encoding/json] writes for
    an integer. *)
Definition FormatInt (i : Z) : string := NilZero.string_of_int (Z.to_int i).

End strconv.


(** ** Package unicode/utf8 *)

Module utf8.

Definition RuneSelf : Z := 128.
Definition RuneError : Z := 65533.

(** The table [first]: what a leading byte announces.  The low three bits
    are the length of the encoding, the high four bits index
    [acceptRanges]; [241] marks a byte that cannot start an encoding and
    [240] an ASCII byte. *)
Definition first (b : Z) : Z :=
  if b <? 128 then 240
  else if b <? 194 then 241
  else if b <? 224 then 2
  else if b =? 224 then 19
  else if b <? 237 then 3
  else if b =? 237 then 35
  else if b <? 240 then 3
  else if b =? 240 then 52
  else if b <? 244 then 4
  else if b =? 244 then 68
  else 241.

(** [acceptRanges]: the bounds of the second byte. *)
Definition acceptRanges (i : Z) : Z * Z :=
  if i =? 1 then (160, 191)
  else if i =? 2 then (128, 159)
  else if i =? 3 then (144, 191)
  else if i =? 4 then (128, 143)
  else (128, 191).

Definition continuation (b : Z) : bool := (128 <=? b) && (b <=? 191).

(** [utf8.DecodeRuneInString] on the bytes of [s]: the rune and the number
    of bytes it takes; an invalid encoding is [(RuneError, 1)]. *)
Definition DecodeRuneInString (s : list Z) : Z * Z :=
  match s with
  | [] => (RuneError, 0)
  | s0 :: t =>
      let x := first s0 in
      if 240 <=? x then ((if x =? 240 then s0 else RuneError), 1)
      else
        let sz := Z.land x 7 in
        let '(lo, hi) := acceptRanges (Z.shiftr x 4) in
        if Z.of_nat (length s) <? sz then (RuneError, 1)
        else
          match t with
          | [] => (RuneError, 1)
          | s1 :: t1 =>
              if (s1 <? lo) || (hi <? s1) then (RuneError, 1)
              else if sz <=? 2 then
                (Z.lor (Z.shiftl (Z.land s0 31) 6) (Z.land s1 63), 2)
              else
                match t1 with
                | [] => (RuneError, 1)
                | s2 :: t2 =>
                    if negb (continuation s2) then (RuneError, 1)
                    else if sz <=? 3 then
                      (Z.lor (Z.lor (Z.shiftl (Z.land s0 15) 12)
                                    (Z.shiftl (Z.land s1 63) 6))
                             (Z.land s2 63), 3)
                    else
                      match t2 with
                      | [] => (RuneError, 1)
                      | s3 :: _ =>
                          if negb (continuation s3) then (RuneError, 1)
                          else
                            (Z.lor (Z.lor (Z.lor (Z.shiftl (Z.land s0 7) 18)
                                                 (Z.shiftl (Z.land s1 63) 12))
                                          (Z.shiftl (Z.land s2 63) 6))
                                   (Z.land s3 63), 4)
                      end
                end
          end
  end.

End utf8.

(** ** Package encoding/json *)

Module json.

Definition hex (n : Z) : ascii :=
  nth (Z.to_nat n) (bytes_of_string "0123456789abcdef") "0"%char.

(** [htmlSafeSet]: the ASCII bytes written as they are. *)
Definition htmlSafe (b : Z) : bool :=
  (32 <=? b) && (b <? 128)
  && negb ((b =? 34) || (b =? 38) || (b =? 60) || (b =? 62) || (b =? 92)).

(** The escape written for an ASCII byte outside [htmlSafeSet].  Backspace
    and form feed have had their short escapes since Go 1.22; older releases
    wrote them as [u0008] and [u000c]. *)
Definition escapeByte (b : Z) : string :=
  if (b =? 92) || (b =? 34) then String backslash (String (byte_of b) "")
  else if b =? 8 then String backslash "b"
  else if b =? 12 then String backslash "f"
  else if b =? 10 then String backslash "n"
  else if b =? 13 then String backslash "r"
  else if b =? 9 then String backslash "t"
  else String backslash "u00"
         +:+ String (hex (Z.shiftr b 4)) (String (hex (Z.land b 15)) "").

(** Where the scan of [appendString] stands: looking at a fresh byte, or
    inside a multi-byte rune whose remaining bytes are copied or dropped. *)
Inductive scan := Fresh | Copy (n : nat) | Drop (n : nat).

(** The loop of [appendString(dst, src, escapeHTML = true)], the string
    encoder behind [json.Marshal]. *)
Fixpoint appendStringLoop (src : string) (st : scan) : string :=
  match src with
  | EmptyString => EmptyString
  | String c r =>
      match st with
      | Copy (S n) => String c (appendStringLoop r (Copy n))
      | Drop (S n) => appendStringLoop r (Drop n)
      | _ =>
          let b := byte_val c in
          if b <? utf8.RuneSelf then
            (if htmlSafe b then String c EmptyString else escapeByte b)
            +:+ appendStringLoop r Fresh
          else
            let '(rune, size) :=
              utf8.DecodeRuneInString
                (map byte_val (take 4 (bytes_of_string src))) in
            if (rune =? utf8.RuneError) && (size =? 1) then
              String backslash "ufffd" +:+ appendStringLoop r Fresh
            else if (rune =? 8232) || (rune =? 8233) then
              String backslash "u202"
              +:+ String (hex (Z.land rune 15))
                    (appendStringLoop r (Drop (Z.to_nat (size - 1))))
            else String c (appendStringLoop r (Copy (Z.to_nat (size - 1))))
      end
  end.

Definition appendString (src : string) : string :=
  String dquote (appendStringLoop src Fresh) +:+ String dquote "".

(** The array encoder: [null] for a nil slice, else the elements between
    brackets, separated by commas. *)
Definition encodeSlice {A : Type} (enc : A -> string) (v : slice A) : string :=
  match v with
  | None => "null"
  | Some elems => "[" +:+ Join (map enc elems) "," +:+ "]"
  end.

(** [json.Marshal] at type [[]string].  The encoder has no failing case at
    this type: a string that is not valid UTF-8 is written with U+FFFD in
    place of the offending bytes. *)
Definition Marshal_strings (v : slice string) : result error string :=
  Ok (encodeSlice appendString v).

(** [json.Marshal] at type [[]int]. *)
Definition Marshal_ints (v : slice Z) : result error string :=
  Ok (encodeSlice strconv.FormatInt v).

End json.


(** ** Package net/url *)

Module url.

(** [url.Values]. *)
Abbreviation Values := (gmap string (list string)).

(** [Values.Get]: the first value of the key, or the empty string. *)
Definition Values_Get (v : Values) (key : string) : string :=
  match v !! key with
  | Some (x :: _) => x
  | _ => EmptyString
  end.

(** [Values.Set]. *)
Definition Values_Set (v : Values) (key value : string) : Values :=
  <[key := [value]]> v.

Definition upperhex (n : Z) : ascii :=
  nth (Z.to_nat n) (bytes_of_string "0123456789ABCDEF") "0"%char.

Definition alnum (b : Z) : bool :=
  ((97 <=? b) && (b <=? 122)) || ((65 <=? b) && (b <=? 90))
  || ((48 <=? b) && (b <=? 57)).

(** [shouldEscape(c, encodeQueryComponent)]: letters, digits and the marks
    [-], [_], [.] and [~] are kept, every other byte is escaped. *)
Definition shouldEscape (b : Z) : bool :=
  negb (alnum b || (b =? 45) || (b =? 95) || (b =? 46) || (b =? 126)).

(** [url.QueryEscape]. *)
Fixpoint QueryEscape (s : string) : string :=
  match s with
  | EmptyString => EmptyString
  | String c r =>
      let b := byte_val c in
      if shouldEscape b then
        if b =? 32 then String "+"%char (QueryEscape r)
        else String "%"%char
               (String (upperhex (Z.shiftr b 4))
                  (String (upperhex (Z.land b 15)) (QueryEscape r)))
      else String c (QueryEscape r)
  end.

Definition key_le (a b : string * list string) : Prop :=
  Is_true (String.leb a.1 b.1).

Global Instance key_le_dec : RelDecision key_le :=
  fun a b => Is_true_dec (String.leb a.1 b.1).

(** [Values.Encode]: [key=value] pairs joined by [&], keys in sorted
    order. *)
Definition Values_Encode (v : Values) : string :=
  Join
    (flat_map
       (fun kv : string * list string =>
          map (fun x => QueryEscape kv.1 +:+ "=" +:+ QueryEscape x) kv.2)
       (merge_sort key_le (map_to_list v)))
    "&".

End url.

(** ** Package net/http *)

Module http.

Abbreviation Header := (gmap string (list string)).

Definition StatusOK : Z := 200.
Definition StatusFound : Z := 302.
Definition StatusBadRequest : Z := 400.
Definition StatusForbidden : Z := 403.
Definition StatusNotFound : Z := 404.
Definition StatusInternalServerError : Z := 500.

(** [http.StatusText] at the codes the server answers with. *)
Definition StatusText (code : Z) : string :=
  if code =? 200 then "OK"
  else if code =? 302 then "Found"
  else if code =? 400 then "Bad Request"
  else if code =? 403 then "Forbidden"
  else if code =? 404 then "Not Found"
  else if code =? 500 then "Internal Server Error"
  else EmptyString.

(** What a handler reads of [*http.Request]: the method, the path, the
    parsed query ([r.URL.Query()]) and the context, which is opaque here. *)
Record Request := {
  Method : string;
  Path : string;
  Query : url.Values;
  Context : Z
}.

(** The [http.ResponseWriter] of the server.  [header] is the live map of
    [w.Header()]; the first [WriteHeader] fixes the status and the headers
    that are sent, and a [Write] before any [WriteHeader] implies
    [WriteHeader(200)].  Header keys are used in their canonical form, as the
    source writes them.  What the server adds on its own when it flushes
    ([Date], [Content-Length], a sniffed [Content-Type] when none was set) is
    not part of the model. *)
Record ResponseWriter := {
  header : Header;
  wroteHeader : bool;
  status : Z;
  sent : Header;
  body : string
}.

Definition newResponseWriter : ResponseWriter :=
  {| header := ∅; wroteHeader := false; status := 0; sent := ∅;
     body := EmptyString |}.

(** [w.Header().Set(key, value)]. *)
Definition Header_Set (w : ResponseWriter) (key value : string) : ResponseWriter :=
  {| header := <[key := [value]]> (header w); wroteHeader := wroteHeader w;
     status := status w; sent := sent w; body := body w |}.

(** [w.Header().Del(key)]. *)
Definition Header_Del (w : ResponseWriter) (key : string) : ResponseWriter :=
  {| header := delete key (header w); wroteHeader := wroteHeader w;
     status := status w; sent := sent w; body := body w |}.

(** [w.WriteHeader(code)]; a second call changes nothing. *)
Definition WriteHeader (w : ResponseWriter) (code : Z) : ResponseWriter :=
  if wroteHeader w then w
  else {| header := header w; wroteHeader := true; status := code;
          sent := header w; body := body w |}.

(** [w.Write(b)]. *)
Definition Write (w : ResponseWriter) (b : string) : ResponseWriter :=
  let w := if wroteHeader w then w else WriteHeader w StatusOK in
  {| header := header w; wroteHeader := wroteHeader w; status := status w;
     sent := sent w; body := body w +:+ b |}.

(** The value of a header of the response as it was sent. *)
Definition sentHeader (w : ResponseWriter) (key : string) : string :=
  url.Values_Get (sent w) key.

(** [http.Error]: the message goes out through [fmt.Fprintln], which ends
    it with a newline. *)
Definition Error (w : ResponseWriter) (err : string) (code : Z) : ResponseWriter :=
  let w := Header_Del w "Content-Length" in
  let w := Header_Set w "Content-Type" "text/plain; charset=utf-8" in
  let w := Header_Set w "X-Content-Type-Options" "nosniff" in
  let w := WriteHeader w code in
  Write w (err +:+ newline).

(** [hexEscapeNonASCII]: a byte outside ASCII becomes [%] and its value in
    lower-case hexadecimal. *)
Fixpoint hexEscapeNonASCII (s : string) : string :=
  match s with
  | EmptyString => EmptyString
  | String c r =>
      let b := byte_val c in
      if 128 <=? b then
        String "%"%char
          (String (json.hex (Z.shiftr b 4))
             (String (json.hex (Z.land b 15)) (hexEscapeNonASCII r)))
      else String c (hexEscapeNonASCII r)
  end.

(** [htmlEscape], the replacer of [net/http]. *)
Fixpoint htmlEscape (s : string) : string :=
  match s with
  | EmptyString => EmptyString
  | String c r =>
      let b := byte_val c in
      (if b =? 38 then "&amp;"
       else if b =? 60 then "&lt;"
       else if b =? 62 then "&gt;"
       else if b =? 34 then "&#34;"
       else if b =? 39 then "&#39;"
       else String c EmptyString) +:+ htmlEscape r
  end.

(** [http.Redirect] for a URL that carries a scheme.  The step that makes a
    relative URL absolute applies only to a URL without scheme and host;
    the one caller passes the result of [AuthCodeURL], which starts with
    [https://login.microsoftonline.com/]. *)
Definition Redirect (w : ResponseWriter) (r : Request) (url : string) (code : Z)
  : ResponseWriter :=
  let hadCT := bool_decide (is_Some (header w !! "Content-Type")) in
  let w := Header_Set w "Location" (hexEscapeNonASCII url) in
  let w :=
    if negb hadCT && (String.eqb (Method r) "GET" || String.eqb (Method r) "HEAD")
    then Header_Set w "Content-Type" "text/html; charset=utf-8" else w in
  let w := WriteHeader w code in
  if negb hadCT && String.eqb (Method r) "GET" then
    Write w ("<a href=" +:+ String dquote (htmlEscape url)
             +:+ String dquote ">" +:+ StatusText code +:+ "</a>." +:+ newline
             +:+ newline)
  else w.

(** The request [client.Do] sends and the response it hands back.  [Body]
    is what [ioutil.ReadAll(resp.Body)] yields. *)
Record ClientRequest := {
  reqMethod : string;
  reqURL : string;
  reqHeader : Header
}.

(** [req.Header.Set(key, value)]. *)
Definition Request_Header_Set (req : ClientRequest) (key value : string)
  : ClientRequest :=
  {| reqMethod := reqMethod req; reqURL := reqURL req;
     reqHeader := <[key := [value]]> (reqHeader req) |}.

Record Response := {
  StatusCode : Z;
  Status : string;
  Body : result error string
}.

End http.

(** ** Package golang.org/x/oauth2 and its microsoft endpoint *)

Module oauth2.

Record Endpoint := { AuthURL : string; TokenURL : string; DeviceAuthURL : string }.

Record Config := {
  ClientID : string;
  ClientSecret : string;
  Endpoint_ : Endpoint;
  RedirectURL : string;
  Scopes : slice string
}.

(** Of [*oauth2.Token] the server reads the access token only. *)
Record Token := { AccessToken : string }.

(** An [AuthCodeOption] sets one parameter of the authorization URL. *)
Definition AuthCodeOption : Type := string * string.

Definition SetAuthURLParam (key value : string) : AuthCodeOption := (key, value).
Definition AccessTypeOnline : AuthCodeOption := SetAuthURLParam "access_type" "online".

Definition len {A} (s : slice A) : Z :=
  match s with None => 0 | Some l => Z.of_nat (length l) end.

Definition elems {A} (s : slice A) : list A :=
  match s with None => [] | Some l => l end.

(** The method [AuthCodeURL] of [Config]. *)
Definition AuthCodeURL (c : Config) (state : string) (opts : list AuthCodeOption)
  : string :=
  let v : url.Values := {[ "response_type" := ["code"] ]} in
  let v := url.Values_Set v "client_id" (ClientID c) in
  let v := if String.eqb (RedirectURL c) "" then v
           else url.Values_Set v "redirect_uri" (RedirectURL c) in
  let v := if 0 <? len (Scopes c)
           then url.Values_Set v "scope" (Join (elems (Scopes c)) " ") else v in
  let v := if String.eqb state "" then v else url.Values_Set v "state" state in
  let v := fold_left (fun v (o : AuthCodeOption) => url.Values_Set v o.1 o.2) opts v in
  AuthURL (Endpoint_ c)
  +:+ (if Contains (AuthURL (Endpoint_ c)) "?" then "&" else "?")
  +:+ url.Values_Encode v.

(** [microsoft.AzureADEndpoint]. *)
Definition AzureADEndpoint (tenant : string) : Endpoint :=
  let tenant := if String.eqb tenant "" then "common" else tenant in
  {| AuthURL := "https://login.microsoftonline.com/" +:+ tenant +:+ "/oauth2/v2.0/authorize";
     TokenURL := "https://login.microsoftonline.com/" +:+ tenant +:+ "/oauth2/v2.0/token";
     DeviceAuthURL := "https://login.microsoftonline.com/" +:+ tenant +:+ "/oauth2/v2.0/devicecode" |}.

End oauth2.


(** ** The collaborators of the server *)

(** Temporary struct of the source, filled by [json.Unmarshal] from
    [config.json]. *)
Record oauthJSONRepr := {
  ClientID : string;
  ClientSecret : string;
  RedirectURL : string;
  Scopes : slice string;
  Tenant : string
}.

(** Everything the program calls and does not define.  One [Env] is the
    world as one run of [init], [main] or a handler finds it:
    - [ReadFile]: [ioutil.ReadFile];
    - [Unmarshal]: [json.Unmarshal] into an [oauthJSONRepr];
    - [ListenAndServe]: the error [server.ListenAndServe] ends with when
      the port cannot be bound;
    - [Exchange]: the token request of [oauthConfig.Exchange];
    - [NewRequest]: [http.NewRequest] with a nil body;
    - [Do]: [client.Do] of a fresh [http.Client];
    - [GetFreeClass], [GetFreeSlot], [GetTimetableByDay]: package [db];
    - [UnixNano]: the clock read by [time.Now().UnixNano()];
    - [Int31]: the value of [r.Int31()] that the [i]-th call of [rand.Intn]
      after [rand.Seed(seed)] accepts and then reduces modulo its bound. *)
Record Env := {
  ReadFile : string -> result error string;
  Unmarshal : string -> result error oauthJSONRepr;
  ListenAndServe : string -> option error;
  Exchange : oauth2.Config -> Z -> string -> result error oauth2.Token;
  NewRequest : string -> string -> result error http.ClientRequest;
  Do : http.ClientRequest -> result error http.Response;
  GetFreeClass : Z -> string -> slice string;
  GetFreeSlot : string -> string -> slice Z;
  GetTimetableByDay : string -> string -> slice string;
  UnixNano : Z;
  Int31 : Z -> nat -> Z
}.

(** What a run does to the outside, in order. *)
Inductive Event :=
| EvLog (msg : string)
| EvExit (code : Z)
| EvListen (addr : string)
| EvExchange (ctx : Z) (code : string)
| EvDo (req : http.ClientRequest)
| EvGetFreeClass (slot : Z) (day : string)
| EvGetFreeSlot (class day : string)
| EvGetTimetableByDay (class day : string).

(** A computation that returns a value and leaves a trace. *)
Definition IO (A : Type) : Type := A * list Event.

Definition ret {A} (a : A) : IO A := (a, []).

Definition bind {A B} (m : IO A) (k : A -> IO B) : IO B :=
  let '(a, t1) := m in
  let '(b, t2) := k a in
  (b, t1 ++ t2).

Definition emit {A} (e : Event) (a : A) : IO A := (a, [e]).

Definition value {A} (m : IO A) : A := m.1.
Definition events {A} (m : IO A) : list Event := m.2.

Declare Scope io_scope.
Delimit Scope io_scope with io.
Notation "x <- m ;; k" := (bind m (fun x => k))
  (at level 100, m at next level, right associativity) : io_scope.
Notation "m ;; k" := (bind m (fun _ => k))
  (at level 100, right associativity) : io_scope.

(** ** Package main *)

Module main.

Definition configFile : string := "./config.json".
Definition port : string := ":42069".

Section Handlers.

Variable env : Env.

(** The global [oauthConfig]; the handlers dereference it and never assign
    it. *)
Variable oauthConfig : oauth2.Config.

Local Open Scope io_scope.

(** [log.Println(msg, err)]: the operands separated by a space, then a
    newline. *)
Definition log_Println (operands : list string) : IO unit :=
  emit (EvLog (Join operands " " +:+ newline)) tt.

Definition charset : string :=
  "abcdefghijklmnopqrstuvwxyzABCDEFGHIJKLMNOPQRSTUVWXYZ0123456789".

(** [rand.Intn(n)], the [i]-th call after [rand.Seed(seed)]. *)
Definition rand_Intn (seed : Z) (i : nat) (n : Z) : Z := Int31 env seed i `mod` n.

(** [charset[i]]; the index is always within the string. *)
Definition charsetAt (i : Z) : ascii :=
  nth (Z.to_nat i) (bytes_of_string charset) "000"%char.

Definition generateRandomString (length : nat) : string :=
  let seed := UnixNano env in
  string_of_bytes
    (map (fun i => charsetAt (rand_Intn seed i (Z.of_nat (String.length charset))))
         (seq 0 length)).

Definition oauthLoginHandler (w : http.ResponseWriter) (r : http.Request)
  : IO http.ResponseWriter :=
  let state := generateRandomString 16 in
  let authURL :=
    oauth2.AuthCodeURL oauthConfig state
      [oauth2.AccessTypeOnline; oauth2.SetAuthURLParam "prompt" "select_account"] in
  ret (http.Redirect w r authURL http.StatusFound).

Definition client_Do (req : http.ClientRequest) : IO (result error http.Response) :=
  emit (EvDo req) (Do env req).

Definition requestGraphAPI (accessToken endpoint : string) : IO (result error string) :=
  let url := "https://graph.microsoft.com/v1.0/" +:+ endpoint in
  match NewRequest env "GET" url with
  | Err err => ret (Err err)
  | Ok req =>
      let req := http.Request_Header_Set req "Authorization" ("Bearer " +:+ accessToken) in
      let req := http.Request_Header_Set req "Accept" "application/json" in
      resp <- client_Do req ;;
      match resp with
      | Err err => ret (Err err)
      | Ok resp =>
          if negb (http.StatusCode resp =? http.StatusOK) then
            ret (Err ("unexpected response status: " +:+ http.Status resp))
          else
            match http.Body resp with
            | Err err => ret (Err err)
            | Ok body => ret (Ok body)
            end
      end
  end.

Definition oauthConfig_Exchange (ctx : Z) (code : string)
  : IO (result error oauth2.Token) :=
  emit (EvExchange ctx code) (Exchange env oauthConfig ctx code).

Definition oauthExchangeHandler (w : http.ResponseWriter) (r : http.Request)
  : IO http.ResponseWriter :=
  let code := url.Values_Get (http.Query r) "code" in
  token <- oauthConfig_Exchange (http.Context r) code ;;
  match token with
  | Err err =>
      log_Println ["Error while exchanging authorization code"; err] ;;
      let w := http.Header_Set w "Content-Type" "text/plain; charset=utf-8" in
      let w := http.WriteHeader w http.StatusBadRequest in
      ret (http.Write w err)
  | Ok token =>
      userProfileJSON <- requestGraphAPI (oauth2.AccessToken token) "me" ;;
      match userProfileJSON with
      | Err err =>
          log_Println ["Error getting user profile"; err] ;;
          let w := http.Header_Set w "Content-Type" "text/plain; charset=utf-8" in
          let w := http.WriteHeader w http.StatusForbidden in
          ret (http.Write w err)
      | Ok userProfileJSON =>
          userOrgJSON <- requestGraphAPI (oauth2.AccessToken token) "organization" ;;
          match userOrgJSON with
          | Err err =>
              log_Println ["Error getting user organization"; err] ;;
              let w := http.Header_Set w "Content-Type" "text/plain; charset=utf-8" in
              let w := http.WriteHeader w http.StatusForbidden in
              ret (http.Write w err)
          | Ok userOrgJSON =>
              let w := http.Header_Set w "Content-Type" "application/json" in
              let w := http.WriteHeader w http.StatusOK in
              let w := http.Write w userProfileJSON in
              let w := http.Write w newline in
              ret (http.Write w userOrgJSON)
          end
      end
  end.

Definition db_GetFreeClass (slot : Z) (day : string) : IO (slice string) :=
  emit (EvGetFreeClass slot day) (GetFreeClass env slot day).

Definition db_GetFreeSlot (class day : string) : IO (slice Z) :=
  emit (EvGetFreeSlot class day) (GetFreeSlot env class day).

Definition db_GetTimetableByDay (class day : string) : IO (slice string) :=
  emit (EvGetTimetableByDay class day) (GetTimetableByDay env class day).

Definition freeClassHandler (w : http.ResponseWriter) (r : http.Request)
  : IO http.ResponseWriter :=
  let slotStr := url.Values_Get (http.Query r) "slot" in
  let day := url.Values_Get (http.Query r) "day" in
  match strconv.Atoi slotStr with
  | Err _ => ret (http.Error w "Invalid slot value" http.StatusBadRequest)
  | Ok slot =>
      classroom <- db_GetFreeClass slot day ;;
      match json.Marshal_strings classroom with
      | Err err => ret (http.Error w err http.StatusInternalServerError)
      | Ok jsonResponse =>
          let w := http.Header_Set w "Content-Type" "application/json" in
          ret (http.Write w jsonResponse)
      end
  end.

Definition freeSlotHandler (w : http.ResponseWriter) (r : http.Request)
  : IO http.ResponseWriter :=
  let class := url.Values_Get (http.Query r) "class" in
  let day := url.Values_Get (http.Query r) "day" in
  slot <- db_GetFreeSlot class day ;;
  match json.Marshal_ints slot with
  | Err err => ret (http.Error w err http.StatusInternalServerError)
  | Ok jsonResponse =>
      let w := http.Header_Set w "Content-Type" "application/json" in
      ret (http.Write w jsonResponse)
  end.

Definition dayTimetableHandler (w : http.ResponseWriter) (r : http.Request)
  : IO http.ResponseWriter :=
  let class := url.Values_Get (http.Query r) "class" in
  let day := url.Values_Get (http.Query r) "day" in
  subject <- db_GetTimetableByDay class day ;;
  match json.Marshal_strings subject with
  | Err err => ret (http.Error w err http.StatusInternalServerError)
  | Ok jsonResponse =>
      let w := http.Header_Set w "Content-Type" "application/json" in
      ret (http.Write w jsonResponse)
  end.

End Handlers.

(** A handler as [router.HandleFunc] takes it. *)
Definition HandlerFunc : Type :=
  http.ResponseWriter -> http.Request -> IO http.ResponseWriter.

(** The routes [main] registers. *)
Definition router (env : Env) (oauthConfig : oauth2.Config) : gmap string HandlerFunc :=
  <["/db/daytimetable" := dayTimetableHandler env]>
    (<["/db/freeslot" := freeSlotHandler env]>
       (<["/db/freeclass" := freeClassHandler env]>
          (<["/oauth/exchange" := oauthExchangeHandler env oauthConfig]>
             (<["/oauth/login" := oauthLoginHandler env oauthConfig]> ∅)))).

(** [ServeMux.ServeHTTP] for patterns without a trailing slash: the path
    has to be a registered pattern, and any other path is answered by
    [http.NotFound].  The redirect of a path that is not in its cleaned form
    is left out. *)
Definition ServeHTTP (mux : gmap string HandlerFunc) : HandlerFunc :=
  fun w r =>
    match mux !! http.Path r with
    | Some h => h w r
    | None => ret (http.Error w "404 page not found" http.StatusNotFound)
    end.

(** The state of the process: the global [oauthConfig] ([nil] until [init]
    assigns it), whether the process has exited, and whether the server
    accepts connections. *)
Record Process := {
  oauthConfig : option oauth2.Config;
  exited : bool;
  listening : bool
}.

Definition start : Process :=
  {| oauthConfig := None; exited := false; listening := false |}.

Local Open Scope io_scope.

(** [log.Fatal(msg, err)]: the operands printed as [fmt.Sprint] does (no
    space is added next to a string operand), then [os.Exit(1)]. *)
Definition log_Fatal (operands : list string) (p : Process) : IO Process :=
  emit (EvLog (Join operands "")) tt ;;
  emit (EvExit 1) tt ;;
  ret {| oauthConfig := oauthConfig p; exited := true; listening := listening p |}.

Definition init (env : Env) (p : Process) : IO Process :=
  match ReadFile env configFile with
  | Err err => log_Fatal ["Error reading JSON file:"; err] p
  | Ok file =>
      match Unmarshal env file with
      | Err err => log_Fatal ["Error unmarshalling JSON:"; err] p
      | Ok jsonData =>
          ret {| oauthConfig :=
                   Some {| oauth2.ClientID := ClientID jsonData;
                           oauth2.ClientSecret := ClientSecret jsonData;
                           oauth2.RedirectURL := RedirectURL jsonData;
                           oauth2.Scopes := Scopes jsonData;
                           oauth2.Endpoint_ := oauth2.AzureADEndpoint (Tenant jsonData) |};
                 exited := exited p; listening := listening p |}
      end
  end.

(** [main] up to the point where [ListenAndServe] either fails, which is
    fatal, or keeps serving. *)
Definition main (env : Env) (p : Process) : IO Process :=
  log_Println ["Server starting on port "; port] ;;
  emit (EvListen port) tt ;;
  match ListenAndServe env port with
  | Some err => log_Fatal [err] p
  | None => ret {| oauthConfig := oauthConfig p; exited := exited p; listening := true |}
  end.

(** The Go runtime runs [init] and then, unless the process has exited,
    [main]. *)
Definition run (env : Env) : IO Process :=
  p <- init env start ;;
  if exited p then ret p else main env p.

(** One request served by a listening process, in the world [env] of that
    moment, through the router [main] has set up.  A process that has exited
    or does not listen answers nothing.  [main] runs only after [init] has
    stored the configuration, so that a listening process has one. *)
Definition serve1 (p : Process) (env : Env) (r : http.Request)
  : IO (Process * option http.ResponseWriter) :=
  if exited p || negb (listening p) then ret (p, None)
  else
    match oauthConfig p with
    | None => ret (p, None)
    | Some c =>
        w <- ServeHTTP (router env c) http.newResponseWriter r ;;
        ret (p, Some w)
    end.

(** The requests of a run, served one after the other. *)
Fixpoint serve (p : Process) (reqs : list (Env * http.Request))
  : IO (Process * list (option http.ResponseWriter)) :=
  match reqs with
  | [] => ret (p, [])
  | (env, r) :: rest =>
      pw <- serve1 p env r ;;
      pws <- serve pw.1 rest ;;
      ret (pws.1, pw.2 :: pws.2)
  end.

End main.


(** ** What a client sees of a response *)

Definition contentType (w : http.ResponseWriter) : string :=
  http.sentHeader w "Content-Type".

(** A JSON array with the given encoded elements. *)
Definition jsonArray (elems : list string) : string :=
  "[" +:+ Join elems "," +:+ "]".

Definition textPlain : string := "text/plain; charset=utf-8".
Definition applicationJSON : string := "application/json".

(** A response with the given status, content type and body. *)
Definition responds (w : http.ResponseWriter) (code : Z) (ctype body : string) : Prop :=
  http.status w = code /\ contentType w = ctype /\ http.body w = body.

(** [s] between double quotes. *)
Definition quoted (s : string) : string := String dquote s +:+ String dquote EmptyString.

(** Two requests that differ at most in the values of the query parameter
    [state]. *)
Definition same_but_state (r1 r2 : http.Request) : Prop :=
  http.Method r1 = http.Method r2
  /\ http.Path r1 = http.Path r2
  /\ http.Context r1 = http.Context r2
  /\ forall key : string, key <> "state" -> http.Query r1 !! key = http.Query r2 !! key.

(** The request [requestGraphAPI] hands to [client.Do], given the one
    [http.NewRequest] built. *)
Definition withBearer (req : http.ClientRequest) (accessToken : string)
  : http.ClientRequest :=
  http.Request_Header_Set
    (http.Request_Header_Set req "Authorization" ("Bearer " +:+ accessToken))
    "Accept" "application/json".

Definition graphURL (endpoint : string) : string :=
  "https://graph.microsoft.com/v1.0/" +:+ endpoint.

(** A start that ends in [log.Fatal(msg)]: the diagnostic is logged, the
    process exits with status 1, it never listens, and no request is
    answered. *)
Definition dies_with (env : Env) (msg : string) : Prop :=
  events (main.run env) = [EvLog msg; EvExit 1]
  /\ main.exited (value (main.run env)) = true
  /\ main.listening (value (main.run env)) = false
  /\ (forall addr, EvListen addr ∉ events (main.run env))
  /\ forall reqs,
       (value (main.serve (value (main.run env)) reqs)).2 = map (fun _ => None) reqs
       /\ events (main.serve (value (main.run env)) reqs) = [].

(** ** A concrete world, for running the handlers *)

Module Sample.

Definition config : oauthJSONRepr :=
  {| ClientID := "client-1"; ClientSecret := "secret";
     RedirectURL := "http://localhost:42069/oauth/exchange";
     Scopes := Some ["User.Read"]; Tenant := "contoso" |}.

Definition oauthConfig : oauth2.Config :=
  {| oauth2.ClientID := "client-1"; oauth2.ClientSecret := "secret";
     oauth2.Endpoint_ := oauth2.AzureADEndpoint "contoso";
     oauth2.RedirectURL := "http://localhost:42069/oauth/exchange";
     oauth2.Scopes := Some ["User.Read"] |}.

Definition profile : string := "{" +:+ quoted "displayName" +:+ ":" +:+ quoted "Ada" +:+ "}".
Definition organization : string := "{" +:+ quoted "value" +:+ ":[]}".

(** The Graph API answering both requests. *)
Definition graphUp (req : http.ClientRequest) : result error http.Response :=
  if String.eqb (http.reqURL req) "https://graph.microsoft.com/v1.0/me" then
    Ok {| http.StatusCode := 200; http.Status := "200 OK"; http.Body := Ok profile |}
  else
    Ok {| http.StatusCode := 200; http.Status := "200 OK"; http.Body := Ok organization |}.

(** The Graph API out of reach: the transport fails. *)
Definition graphDown (req : http.ClientRequest) : result error http.Response :=
  Err "dial tcp: lookup graph.microsoft.com: no such host".

(** The Graph API answering 200 with a body that breaks off. *)
Definition graphTruncated (req : http.ClientRequest) : result error http.Response :=
  Ok {| http.StatusCode := 200; http.Status := "200 OK"; http.Body := Err "unexpected EOF" |}.

(** The Graph API refusing the organization request. *)
Definition graphForbidden (req : http.ClientRequest) : result error http.Response :=
  if String.eqb (http.reqURL req) "https://graph.microsoft.com/v1.0/me" then
    Ok {| http.StatusCode := 200; http.Status := "200 OK"; http.Body := Ok profile |}
  else
    Ok {| http.StatusCode := 403; http.Status := "403 Forbidden"; http.Body := Ok EmptyString |}.

(** A world in which the file reads as [file], the provider accepts the
    code [good] only, the Graph API behaves as [graph], and the database
    knows the free rooms of slot 3 on Monday and the free slots of class
    10A on Tuesday, and returns a nil slice for every other query. *)
Definition world (file : result error string)
    (graph : http.ClientRequest -> result error http.Response) (now : Z) : Env :=
  {| ReadFile := fun _ => file;
     Unmarshal := fun content =>
       if String.eqb content "{}" then Ok config
       else Err "unexpected end of JSON input";
     ListenAndServe := fun _ => None;
     Exchange := fun _ _ code =>
       if String.eqb code "good" then Ok {| oauth2.AccessToken := "token-1" |}
       else Err "oauth2: cannot fetch token: 400 Bad Request";
     NewRequest := fun method url =>
       Ok {| http.reqMethod := method; http.reqURL := url; http.reqHeader := ∅ |};
     Do := graph;
     GetFreeClass := fun slot day =>
       if (slot =? 3) && String.eqb day "Mon" then Some ["Room A"; "Room B"] else None;
     GetFreeSlot := fun class day =>
       if String.eqb class "10A" && String.eqb day "Tue" then Some [1; 4; 6] else None;
     GetTimetableByDay := fun class day =>
       if String.eqb class "10A" && String.eqb day "Tue" then Some ["Maths"; "Physics"]
       else None;
     UnixNano := now;
     Int31 := fun seed i => (seed + Z.of_nat i * 7919) `mod` 2147483648 |}.

Definition env : Env := world (Ok "{}") graphUp 1700000000000000000.

Definition get (path : string) (query : list (string * list string)) : http.Request :=
  {| http.Method := "GET"; http.Path := path; http.Query := list_to_map query;
     http.Context := 0 |}.

(** The same world with the Graph API out of reach, breaking off, and
    refusing the organization request. *)
Definition down : Env := world (Ok "{}") graphDown 1700000000000000000.
Definition truncated : Env := world (Ok "{}") graphTruncated 1700000000000000000.
Definition forbidden : Env := world (Ok "{}") graphForbidden 1700000000000000000.

Definition freeclass_3_Mon : http.Request :=
  get "/db/freeclass" [("slot", ["3"]); ("day", ["Mon"])].
Definition freeclass_three : http.Request :=
  get "/db/freeclass" [("slot", ["three"]); ("day", ["Mon"])].
Definition freeslot_10A_Tue : http.Request :=
  get "/db/freeslot" [("class", ["10A"]); ("day", ["Tue"])].
Definition freeslot_9Z_Tue : http.Request :=
  get "/db/freeslot" [("class", ["9Z"]); ("day", ["Tue"])].
Definition freeslot_no_class : http.Request :=
  get "/db/freeslot" [("day", ["Tue"])].
Definition exchange_good : http.Request :=
  get "/oauth/exchange" [("code", ["good"]); ("state", ["sbUDm5OxgZIraTCl"])].
Definition exchange_forged : http.Request :=
  get "/oauth/exchange" [("code", ["good"]); ("state", ["forged"])].
Definition exchange_expired : http.Request :=
  get "/oauth/exchange" [("code", ["expired"])].
Definition exchange_no_code : http.Request :=
  get "/oauth/exchange" [].

Definition token : oauth2.Token := {| oauth2.AccessToken := "token-1" |}.

End Sample.

(** ** Vocabulary of the further properties *)

(** A decimal numeral: an optional sign and at least one digit.  [numeral]
    is its value, without any bound. *)
Definition isDigit (c : ascii) : bool :=
  (48 <=? byte_val c) && (byte_val c <=? 57).

Fixpoint allDigits (s : string) : bool :=
  match s with
  | EmptyString => true
  | String c r => isDigit c && allDigits r
  end.

Fixpoint digitsValue (s : string) (acc : Z) : Z :=
  match s with
  | EmptyString => acc
  | String c r => digitsValue r (acc * 10 + (byte_val c - 48))
  end.

Definition unsignedNumeral (s : string) : option Z :=
  match s with
  | EmptyString => None
  | _ => if allDigits s then Some (digitsValue s 0) else None
  end.

Definition numeral (s : string) : option Z :=
  match s with
  | EmptyString => None
  | String c r =>
      if Ascii.eqb c "-" then Z.opp <$> unsignedNumeral r
      else if Ascii.eqb c "+" then unsignedNumeral r
      else unsignedNumeral s
  end.

(** The range of [int]. *)
Definition inInt (n : Z) : Prop := - 2 ^ 63 <= n < 2 ^ 63.

(** Counting the events of one kind in a trace. *)
Definition isDo (e : Event) : bool :=
  match e with EvDo _ => true | _ => false end.

Definition isLog (e : Event) : bool :=
  match e with EvLog _ => true | _ => false end.

Definition isDB (e : Event) : bool :=
  match e with
  | EvGetFreeClass _ _ | EvGetFreeSlot _ _ | EvGetTimetableByDay _ _ => true
  | _ => false
  end.

Definition count (p : Event -> bool) (t : list Event) : nat :=
  length (List.filter p t).

(** The bytes [json.Marshal] and [url.QueryEscape] write as they are. *)
Definition plainByte (c : ascii) : bool := json.htmlSafe (byte_val c).

Definition queryByte (c : ascii) : bool :=
  url.alnum (byte_val c)
  || bool_decide (c ∈ bytes_of_string "-_.~%+").

(** The bytes of a decimal numeral. *)
Definition numByte (c : ascii) : bool := isDigit c || Ascii.eqb c "-".

(** The query of the login redirect for a configuration and a state. *)
Definition loginQuery (c : oauth2.Config) (state : string) : string :=
  "access_type=online&client_id=" +:+ url.QueryEscape (oauth2.ClientID c)
  +:+ "&prompt=select_account"
  +:+ (if String.eqb (oauth2.RedirectURL c) "" then EmptyString
       else "&redirect_uri=" +:+ url.QueryEscape (oauth2.RedirectURL c))
  +:+ "&response_type=code"
  +:+ (if 0 <? oauth2.len (oauth2.Scopes c)
       then "&scope=" +:+ url.QueryEscape (Join (oauth2.elems (oauth2.Scopes c)) " ")
       else EmptyString)
  +:+ "&state=" +:+ state.

(** How often a byte occurs in a string. *)
Definition countByte (c : ascii) (s : string) : nat :=
  length (List.filter (Ascii.eqb c) (bytes_of_string s)).

(** The bytes a JSON text of the server is made of: no byte below 32 (the
    C0 controls, line feed, carriage return and tab among them) and none of
    [<], [>] and [&].  The byte 127 and the bytes of multi-byte runes are
    among them: the encoder writes those as they are. *)
Definition safeByte (c : ascii) : bool :=
  (32 <=? byte_val c)
  && negb ((byte_val c =? 60) || (byte_val c =? 62) || (byte_val c =? 38)).

(** What the scan of [appendString] relies on: the bytes it is about to
    copy are bytes of a multi-byte rune. *)
Definition scanReady (st : json.scan) (src : string) : Prop :=
  match st with
  | json.Copy n => Forall (fun ch => 128 <= byte_val ch) (take n (bytes_of_string src))
  | _ => True
  end.

(** The sample world after the client secret was changed. *)
Definition secretChanged : Env :=
  {| ReadFile := ReadFile Sample.env;
     Unmarshal := fun _ =>
       Ok {| ClientID := "client-1"; ClientSecret := "another secret";
             RedirectURL := "http://localhost:42069/oauth/exchange";
             Scopes := Some ["User.Read"]; Tenant := "contoso" |};
     ListenAndServe := ListenAndServe Sample.env;
     Exchange := Exchange Sample.env; NewRequest := NewRequest Sample.env;
     Do := Do Sample.env; GetFreeClass := GetFreeClass Sample.env;
     GetFreeSlot := GetFreeSlot Sample.env;
     GetTimetableByDay := GetTimetableByDay Sample.env;
     UnixNano := UnixNano Sample.env; Int31 := Int31 Sample.env |}.

(** A URL as its reader takes it apart: the fragment starts at the first
    [#], the query at the first [?] before it; the query is split at every
    [&], and each piece at its first [=].  Values are kept as they are
    written, still escaped. *)
Fixpoint cutAt (c : ascii) (s : string) : string * option string :=
  match s with
  | EmptyString => (EmptyString, None)
  | String x r =>
      if Ascii.eqb c x then (EmptyString, Some r)
      else let '(before, after) := cutAt c r in (String x before, after)
  end.

Fixpoint splitOn (c : ascii) (s : string) : list string :=
  match s with
  | EmptyString => [EmptyString]
  | String x r =>
      if Ascii.eqb c x then EmptyString :: splitOn c r
      else match splitOn c r with
           | [] => [String x EmptyString]
           | piece :: pieces => String x piece :: pieces
           end
  end.

Definition urlQuery (u : string) : option string :=
  (cutAt "?" (cutAt "#" u).1).2.

Definition keyValue (piece : string) : string * string :=
  let '(key, value) := cutAt "=" piece in (key, default EmptyString value).

Definition queryParams (u : string) : list (string * string) :=
  match urlQuery u with
  | None => []
  | Some q => map keyValue (splitOn "&" q)
  end.

Definition queryValues (u key : string) : list string :=
  map snd (List.filter (fun kv : string * string => String.eqb kv.1 key)
             (queryParams u)).

(** The parameters of the login redirect for a configuration and a state,
    in the order of their names. *)
Definition loginParams (c : oauth2.Config) (state : string) : list (string * string) :=
  [("access_type", "online"); ("client_id", url.QueryEscape (oauth2.ClientID c));
   ("prompt", "select_account")]
  ++ (if String.eqb (oauth2.RedirectURL c) "" then []
      else [("redirect_uri", url.QueryEscape (oauth2.RedirectURL c))])
  ++ [("response_type", "code")]
  ++ (if 0 <? oauth2.len (oauth2.Scopes c)
      then [("scope", url.QueryEscape (Join (oauth2.elems (oauth2.Scopes c)) " "))]
      else [])
  ++ [("state", state)].



(** The sample world with the port already taken. *)
Definition portTaken : Env :=
  {| ReadFile := ReadFile Sample.env; Unmarshal := Unmarshal Sample.env;
     ListenAndServe := fun _ =>
       Some "listen tcp :42069: bind: address already in use";
     Exchange := Exchange Sample.env; NewRequest := NewRequest Sample.env;
     Do := Do Sample.env; GetFreeClass := GetFreeClass Sample.env;
     GetFreeSlot := GetFreeSlot Sample.env;
     GetTimetableByDay := GetTimetableByDay Sample.env;
     UnixNano := UnixNano Sample.env; Int31 := Int31 Sample.env |}.

(** * Properties *)

Section Basics.

Context {A B : Type}.

Lemma value_ret (a : A) : value (ret a) = a.
Proof. reflexivity. Qed.

Lemma events_ret (a : A) : events (ret a) = [].
Proof. reflexivity. Qed.

Lemma value_bind (m : IO A) (k : A -> IO B) :
  value (bind m k) = value (k (value m)).
Proof. destruct m as [a t]. unfold bind, value. simpl. by destruct (k a). Qed.

Lemma events_bind (m : IO A) (k : A -> IO B) :
  events (bind m k) = events m ++ events (k (value m)).
Proof. destruct m as [a t]. unfold bind, events, value. simpl. by destruct (k a). Qed.

Lemma value_emit (e : Event) (a : A) : value (emit e a) = a.
Proof. reflexivity. Qed.

Lemma events_emit (e : Event) (a : A) : events (emit e a) = [e].
Proof. reflexivity. Qed.

End Basics.


Ltac io_norm :=
  repeat first
    [ rewrite value_bind | rewrite events_bind | rewrite value_ret
    | rewrite events_ret | rewrite value_emit | rewrite events_emit ].

(** ** The writer *)

Lemma Error_responds (msg : string) (code : Z) :
  responds (http.Error http.newResponseWriter msg code) code textPlain (msg +:+ newline).
Proof. by repeat split. Qed.

Lemma append_assoc (a b c : string) : (a +:+ b) +:+ c = a +:+ b +:+ c.
Proof.
  induction a as [|x a IH]; [reflexivity|].
  change (String x ((a +:+ b) +:+ c) = String x (a +:+ b +:+ c)).
  by rewrite IH.
Qed.

Lemma append_nil_r (a : string) : a +:+ EmptyString = a.
Proof.
  induction a as [|x a IH]; [reflexivity|].
  change (String x (a +:+ EmptyString) = String x a). by rewrite IH.
Qed.

Lemma append_newline_ne (s : string) : s +:+ newline <> s.
Proof. induction s as [|c s IH]; simpl; [discriminate | by intros [= H]]. Qed.

(** ** The standard library as modelled *)

Lemma Marshal_strings_total (v : slice string) :
  json.Marshal_strings v
  = Ok match v with
       | Some elems => jsonArray (map json.appendString elems)
       | None => "null"
       end.
Proof. by destruct v. Qed.

Lemma Marshal_ints_total (v : slice Z) :
  json.Marshal_ints v
  = Ok match v with
       | Some elems => jsonArray (map strconv.FormatInt elems)
       | None => "null"
       end.
Proof. by destruct v. Qed.

Lemma Values_Get_absent (v : url.Values) (key : string) :
  v !! key = None -> url.Values_Get v key = EmptyString.
Proof. unfold url.Values_Get. by intros ->. Qed.

(** ** The database handlers *)

Lemma freeClassHandler_ok (env : Env) (r : http.Request) (slot : Z) :
  strconv.Atoi (url.Values_Get (http.Query r) "slot") = Ok slot ->
  let day := url.Values_Get (http.Query r) "day" in
  let m := main.freeClassHandler env http.newResponseWriter r in
  responds (value m) 200 applicationJSON
    (json.encodeSlice json.appendString (GetFreeClass env slot day))
  /\ events m = [EvGetFreeClass slot day].
Proof. intros H. unfold main.freeClassHandler. rewrite H. by repeat split. Qed.

Lemma freeClassHandler_err (env : Env) (r : http.Request) (e : strconv.NumError) :
  strconv.Atoi (url.Values_Get (http.Query r) "slot") = Err e ->
  let m := main.freeClassHandler env http.newResponseWriter r in
  responds (value m) 400 textPlain ("Invalid slot value" +:+ newline)
  /\ events m = [].
Proof. intros H. unfold main.freeClassHandler. rewrite H. by repeat split. Qed.

Lemma freeSlotHandler_ok (env : Env) (r : http.Request) :
  let class := url.Values_Get (http.Query r) "class" in
  let day := url.Values_Get (http.Query r) "day" in
  let m := main.freeSlotHandler env http.newResponseWriter r in
  responds (value m) 200 applicationJSON
    (json.encodeSlice strconv.FormatInt (GetFreeSlot env class day))
  /\ events m = [EvGetFreeSlot class day].
Proof. by repeat split. Qed.

Lemma dayTimetableHandler_ok (env : Env) (r : http.Request) :
  let class := url.Values_Get (http.Query r) "class" in
  let day := url.Values_Get (http.Query r) "day" in
  let m := main.dayTimetableHandler env http.newResponseWriter r in
  responds (value m) 200 applicationJSON
    (json.encodeSlice json.appendString (GetTimetableByDay env class day))
  /\ events m = [EvGetTimetableByDay class day].
Proof. by repeat split. Qed.

(** ** Requests to the Graph API *)

Section Graph.

Variables (env : Env) (accessToken endpoint : string).

Let m := main.requestGraphAPI env accessToken endpoint.

Lemma requestGraphAPI_no_request (err : error) :
  NewRequest env "GET" (graphURL endpoint) = Err err ->
  value m = Err err /\ events m = [].
Proof.
  intros H. subst m. unfold main.requestGraphAPI. fold (graphURL endpoint).
  by rewrite H.
Qed.

Lemma requestGraphAPI_events (req : http.ClientRequest) :
  NewRequest env "GET" (graphURL endpoint) = Ok req ->
  events m = [EvDo (withBearer req accessToken)].
Proof.
  intros H. subst m. unfold main.requestGraphAPI. fold (graphURL endpoint).
  rewrite H. io_norm. unfold main.client_Do. io_norm.
  fold (withBearer req accessToken).
  destruct (Do env (withBearer req accessToken)) as [resp|err]; [|done].
  destruct (negb _); [done|]. by destruct (http.Body resp).
Qed.

Lemma requestGraphAPI_transport (req : http.ClientRequest) (err : error) :
  NewRequest env "GET" (graphURL endpoint) = Ok req ->
  Do env (withBearer req accessToken) = Err err ->
  value m = Err err.
Proof.
  intros H Hdo. subst m. unfold main.requestGraphAPI. fold (graphURL endpoint).
  rewrite H. io_norm. unfold main.client_Do. io_norm.
  fold (withBearer req accessToken). by rewrite Hdo.
Qed.

Lemma requestGraphAPI_status (req : http.ClientRequest) (resp : http.Response) :
  NewRequest env "GET" (graphURL endpoint) = Ok req ->
  Do env (withBearer req accessToken) = Ok resp ->
  http.StatusCode resp <> http.StatusOK ->
  value m = Err ("unexpected response status: " +:+ http.Status resp).
Proof.
  intros H Hdo Hcode. subst m. unfold main.requestGraphAPI. fold (graphURL endpoint).
  rewrite H. io_norm. unfold main.client_Do. io_norm.
  fold (withBearer req accessToken). rewrite Hdo.
  by destruct (Z.eqb_spec (http.StatusCode resp) http.StatusOK).
Qed.

Lemma requestGraphAPI_body (req : http.ClientRequest) (resp : http.Response) :
  NewRequest env "GET" (graphURL endpoint) = Ok req ->
  Do env (withBearer req accessToken) = Ok resp ->
  http.StatusCode resp = http.StatusOK ->
  value m = http.Body resp.
Proof.
  intros H Hdo Hcode. subst m. unfold main.requestGraphAPI. fold (graphURL endpoint).
  rewrite H. io_norm. unfold main.client_Do. io_norm.
  fold (withBearer req accessToken). rewrite Hdo, Hcode. simpl.
  by destruct (http.Body resp).
Qed.

End Graph.

(** ** The exchange handler *)

Section Exchange.

Variables (env : Env) (c : oauth2.Config) (r : http.Request).

Let code := url.Values_Get (http.Query r) "code".
Let m := main.oauthExchangeHandler env c http.newResponseWriter r.
Let graph (token : oauth2.Token) (endpoint : string) :=
  main.requestGraphAPI env (oauth2.AccessToken token) endpoint.

Lemma exchange_failed (err : error) :
  Exchange env c (http.Context r) code = Err err ->
  responds (value m) 400 textPlain err
  /\ events m
     = [EvExchange (http.Context r) code;
        EvLog ("Error while exchanging authorization code " +:+ err +:+ newline)].
Proof.
  intros H. subst m code. unfold main.oauthExchangeHandler.
  io_norm. unfold main.oauthConfig_Exchange. io_norm. rewrite H.
  by repeat split.
Qed.

Lemma profile_failed (token : oauth2.Token) (err : error) :
  Exchange env c (http.Context r) code = Ok token ->
  value (graph token "me") = Err err ->
  responds (value m) 403 textPlain err
  /\ events m
     = EvExchange (http.Context r) code :: events (graph token "me")
       ++ [EvLog ("Error getting user profile " +:+ err +:+ newline)].
Proof.
  intros H Hme. subst m code graph. unfold main.oauthExchangeHandler.
  io_norm. unfold main.oauthConfig_Exchange. io_norm. rewrite H.
  io_norm. rewrite Hme. by repeat split.
Qed.

Lemma organization_failed (token : oauth2.Token) (profile : string) (err : error) :
  Exchange env c (http.Context r) code = Ok token ->
  value (graph token "me") = Ok profile ->
  value (graph token "organization") = Err err ->
  responds (value m) 403 textPlain err
  /\ events m
     = EvExchange (http.Context r) code :: events (graph token "me")
       ++ events (graph token "organization")
       ++ [EvLog ("Error getting user organization " +:+ err +:+ newline)].
Proof.
  intros H Hme Horg. subst m code graph. unfold main.oauthExchangeHandler.
  io_norm. unfold main.oauthConfig_Exchange. io_norm. rewrite H.
  io_norm. rewrite Hme. io_norm. rewrite Horg. by repeat split.
Qed.

Lemma exchange_succeeded (token : oauth2.Token) (profile organization : string) :
  Exchange env c (http.Context r) code = Ok token ->
  value (graph token "me") = Ok profile ->
  value (graph token "organization") = Ok organization ->
  responds (value m) 200 applicationJSON (profile +:+ newline +:+ organization)
  /\ events m
     = EvExchange (http.Context r) code :: events (graph token "me")
       ++ events (graph token "organization").
Proof.
  intros H Hme Horg. subst m code graph. unfold main.oauthExchangeHandler.
  io_norm. unfold main.oauthConfig_Exchange. io_norm. rewrite H.
  io_norm. rewrite Hme. io_norm. rewrite Horg. io_norm.
  repeat split; try reflexivity.
  - apply (append_assoc profile newline organization).
  - by rewrite app_nil_r.
Qed.

End Exchange.

(** The answers of the exchange handler, by cases. *)
Lemma exchange_cases (env : Env) (c : oauth2.Config) (r : http.Request) :
  let w := value (main.oauthExchangeHandler env c http.newResponseWriter r) in
  (http.status w = 200 /\ contentType w = applicationJSON)
  \/ (http.status w = 400 /\ contentType w = textPlain)
  \/ (http.status w = 403 /\ contentType w = textPlain).
Proof.
  intros w.
  destruct (Exchange env c (http.Context r) (url.Values_Get (http.Query r) "code"))
    as [token|err] eqn:H.
  - destruct (value (main.requestGraphAPI env (oauth2.AccessToken token) "me"))
      as [profile|err] eqn:Hme.
    + destruct (value (main.requestGraphAPI env (oauth2.AccessToken token) "organization"))
        as [org|err] eqn:Horg.
      * left. destruct (exchange_succeeded env c r token profile org H Hme Horg)
          as [(? & ? & _) _]. done.
      * right; right.
        destruct (organization_failed env c r token profile err H Hme Horg)
          as [(? & ? & _) _]. done.
    + right; right.
      destruct (profile_failed env c r token err H Hme) as [(? & ? & _) _]. done.
  - right; left. destruct (exchange_failed env c r err H) as [(? & ? & _) _]. done.
Qed.

(** ** Start and service *)

(** The five routes of [main], and the answer to any other path. *)
Lemma routes (env : Env) (c : oauth2.Config) :
  let mux := main.router env c in
  mux !! "/oauth/login" = Some (main.oauthLoginHandler env c)
  /\ mux !! "/oauth/exchange" = Some (main.oauthExchangeHandler env c)
  /\ mux !! "/db/freeclass" = Some (main.freeClassHandler env)
  /\ mux !! "/db/freeslot" = Some (main.freeSlotHandler env)
  /\ mux !! "/db/daytimetable" = Some (main.dayTimetableHandler env)
  /\ forall w r, mux !! http.Path r = None ->
       main.ServeHTTP mux w r
       = ret (http.Error w "404 page not found" http.StatusNotFound).
Proof.
  intros mux. split; [|split; [|split; [|split; [|split]]]]; try reflexivity.
  intros w r H. unfold main.ServeHTTP, main.HandlerFunc in *. by rewrite H.
Qed.

Lemma serve1_keeps_process (p : main.Process) (env : Env) (r : http.Request) :
  (value (main.serve1 p env r)).1 = p.
Proof.
  unfold main.serve1. destruct (main.exited p || negb (main.listening p)); [done|].
  destruct (main.oauthConfig p); [|done]. by io_norm.
Qed.

Lemma serve_keeps_process (p : main.Process) (reqs : list (Env * http.Request)) :
  (value (main.serve p reqs)).1 = p.
Proof.
  revert p. induction reqs as [|[env r] reqs IH]; intros p; [done|].
  simpl. io_norm. simpl. by rewrite serve1_keeps_process, IH.
Qed.

Lemma serve_not_listening (p : main.Process) (reqs : list (Env * http.Request)) :
  main.exited p || negb (main.listening p) = true ->
  (value (main.serve p reqs)).2 = map (fun _ => None) reqs
  /\ events (main.serve p reqs) = [].
Proof.
  intros H. induction reqs as [|[env r] reqs [IHv IHe]]; [done|].
  assert (H1 : main.serve1 p env r = ret (p, None)).
  { unfold main.serve1. by rewrite H. }
  cbn [main.serve]. rewrite H1. io_norm. cbn [fst snd map].
  by rewrite IHv, IHe.
Qed.

Lemma run_fatal_read (env : Env) (err : error) :
  ReadFile env main.configFile = Err err ->
  dies_with env ("Error reading JSON file:" +:+ err).
Proof.
  intros H. unfold dies_with, main.run, main.init. rewrite H.
  repeat split; try done.
  - intros addr. simpl. rewrite !elem_of_cons, elem_of_nil.
    intros [Heq | [Heq | []]]; discriminate Heq.
  - by apply serve_not_listening.
  - by apply serve_not_listening.
Qed.

Lemma run_fatal_parse (env : Env) (file : string) (err : error) :
  ReadFile env main.configFile = Ok file ->
  Unmarshal env file = Err err ->
  dies_with env ("Error unmarshalling JSON:" +:+ err).
Proof.
  intros H Hp. unfold dies_with, main.run, main.init. rewrite H, Hp.
  repeat split; try done.
  - intros addr. simpl. rewrite !elem_of_cons, elem_of_nil.
    intros [Heq | [Heq | []]]; discriminate Heq.
  - by apply serve_not_listening.
  - by apply serve_not_listening.
Qed.

(** ** The login handler *)


Ltac sort_values :=
  match goal with
  | |- context [merge_sort url.key_le (map_to_list ?v)] =>
      let l := eval vm_compute in (merge_sort url.key_le (map_to_list v)) in
      change (merge_sort url.key_le (map_to_list v)) with l
  end.


Lemma alnum_is_ascii (b : Z) : url.alnum b = true -> (128 <=? b) = false.
Proof. unfold url.alnum. lia. Qed.

Lemma alnum_not_escaped (b : Z) : url.alnum b = true -> url.shouldEscape b = false.
Proof. unfold url.shouldEscape. by intros ->. Qed.

Lemma QueryEscape_alnum (s : string) :
  Forall (fun ch => url.alnum (byte_val ch) = true) (bytes_of_string s) ->
  url.QueryEscape s = s.
Proof.
  induction s as [|ch s IH]; [done|]. cbn [bytes_of_string url.QueryEscape].
  intros [Hc Hs]%Forall_cons. by rewrite (alnum_not_escaped _ Hc), IH.
Qed.

Lemma hexEscapeNonASCII_alnum (s : string) :
  Forall (fun ch => url.alnum (byte_val ch) = true) (bytes_of_string s) ->
  http.hexEscapeNonASCII s = s.
Proof.
  induction s as [|ch s IH]; [done|]. cbn [bytes_of_string http.hexEscapeNonASCII].
  intros [Hc Hs]%Forall_cons. by rewrite (alnum_is_ascii _ Hc), IH.
Qed.

Lemma hexEscapeNonASCII_app (s t : string) :
  http.hexEscapeNonASCII (s +:+ t)
  = http.hexEscapeNonASCII s +:+ http.hexEscapeNonASCII t.
Proof.
  induction s as [|ch s IH]; [done|].
  change (String ch s +:+ t) with (String ch (s +:+ t)).
  cbn [http.hexEscapeNonASCII]. rewrite IH. by destruct (128 <=? byte_val ch).
Qed.

Lemma Redirect_found (r : http.Request) (url : string) :
  let w := http.Redirect http.newResponseWriter r url http.StatusFound in
  http.status w = 302
  /\ http.sentHeader w "Location" = http.hexEscapeNonASCII url.
Proof.
  unfold http.Redirect.
  change (bool_decide (is_Some (http.header http.newResponseWriter !! "Content-Type")))
    with false.
  by destruct (String.eqb (http.Method r) "GET"), (String.eqb (http.Method r) "HEAD").
Qed.

Lemma string_of_bytes_length (l : list ascii) :
  String.length (string_of_bytes l) = length l.
Proof. induction l as [|ch l IH]; [done|]. simpl. by rewrite IH. Qed.

Lemma bytes_of_string_of_bytes (l : list ascii) :
  bytes_of_string (string_of_bytes l) = l.
Proof. induction l as [|ch l IH]; [done|]. simpl. by rewrite IH. Qed.


Lemma charset_length : length (bytes_of_string main.charset) = 62%nat.
Proof. reflexivity. Qed.

Lemma charset_alnum :
  Forall (fun ch => url.alnum (byte_val ch) = true) (bytes_of_string main.charset).
Proof. unfold main.charset. cbn [bytes_of_string]. repeat constructor. Qed.


Lemma charsetAt_alnum (x : Z) :
  url.alnum (byte_val (main.charsetAt (x `mod` 62))) = true.
Proof.
  unfold main.charsetAt.
  pose proof charset_alnum as H. rewrite Forall_forall in H. apply H.
  apply list_elem_of_In, nth_In. rewrite charset_length.
  pose proof (Z.mod_pos_bound x 62). lia.
Qed.


Section Login.

Variable env : Env.

Let draw (i : nat) : Z := Int31 env (UnixNano env) i `mod` 62.

Lemma generateRandomString_draws (n : nat) :
  main.generateRandomString env n
  = string_of_bytes (map (fun i => main.charsetAt (draw i)) (seq 0 n)).
Proof. reflexivity. Qed.

Lemma generateRandomString_length (n : nat) :
  String.length (main.generateRandomString env n) = n.
Proof.
  rewrite generateRandomString_draws, string_of_bytes_length.
  by rewrite length_map, length_seq.
Qed.

Lemma generateRandomString_alnum (n : nat) :
  Forall (fun ch => url.alnum (byte_val ch) = true)
    (bytes_of_string (main.generateRandomString env n)).
Proof.
  rewrite generateRandomString_draws, bytes_of_string_of_bytes.
  apply Forall_map, Forall_forall. intros i _. apply charsetAt_alnum.
Qed.

End Login.




Lemma QueryEscape_ascii (s : string) :
  http.hexEscapeNonASCII (url.QueryEscape s) = url.QueryEscape s.
Proof.
  induction s as [|ch s IH]; [done|]. cbn [url.QueryEscape].
  destruct (url.shouldEscape (byte_val ch)) eqn:He.
  - destruct (byte_val ch =? 32).
    + cbn [http.hexEscapeNonASCII]. by rewrite IH.
    + cbn [http.hexEscapeNonASCII].
      change (128 <=? byte_val "%") with false. cbv iota.
      assert (Hup : forall n, (128 <=? byte_val (url.upperhex n)) = false).
      { intros n. unfold url.upperhex.
        destruct (Z.to_nat n) as [|k]; [done|].
        do 16 (destruct k as [|k]; [done|]). by destruct k. }
      by rewrite !Hup, IH.
  - cbn [http.hexEscapeNonASCII].
    assert ((128 <=? byte_val ch) = false) as ->.
    { unfold url.shouldEscape, url.alnum in He. lia. }
    by rewrite IH.
Qed.

Lemma AuthCodeURL_login (c : oauth2.Config) (a : ascii) (s : string) :
  oauth2.AuthCodeURL c (String a s)
    [oauth2.AccessTypeOnline; oauth2.SetAuthURLParam "prompt" "select_account"]
  = oauth2.AuthURL (oauth2.Endpoint_ c)
    +:+ (if Contains (oauth2.AuthURL (oauth2.Endpoint_ c)) "?" then "&" else "?")
    +:+ "access_type=online&client_id=" +:+ url.QueryEscape (oauth2.ClientID c)
    +:+ "&prompt=select_account"
    +:+ (if String.eqb (oauth2.RedirectURL c) "" then EmptyString
         else "&redirect_uri=" +:+ url.QueryEscape (oauth2.RedirectURL c))
    +:+ "&response_type=code"
    +:+ (if 0 <? oauth2.len (oauth2.Scopes c)
         then "&scope=" +:+ url.QueryEscape (Join (oauth2.elems (oauth2.Scopes c)) " ")
         else EmptyString)
    +:+ "&state=" +:+ url.QueryEscape (String a s).
Proof.
  unfold oauth2.AuthCodeURL.
  change (String.eqb (String a s) "") with false. cbv iota.
  generalize (oauth2.AuthURL (oauth2.Endpoint_ c)) as authURL.
  generalize (Join (oauth2.elems (oauth2.Scopes c)) " ") as scope.
  generalize (oauth2.ClientID c) as clientID.
  generalize (0 <? oauth2.len (oauth2.Scopes c)) as hasScope.
  generalize (oauth2.RedirectURL c) as redirect.
  generalize (String a s) as state.
  intros state redirect hasScope clientID scope authURL.
  generalize (if Contains authURL "?" then "&" else "?") as sep. intros sep.
  unfold url.Values_Encode.
  destruct (String.eqb redirect ""), hasScope; sort_values;
    cbn [flat_map map app fst snd Join];
    rewrite !append_assoc; reflexivity.
Qed.

(** ** The bytes of the login redirect *)

Lemma bytes_of_string_app (a b : string) :
  bytes_of_string (a +:+ b) = bytes_of_string a ++ bytes_of_string b.
Proof.
  induction a as [|ch a IH]; [done|].
  change (String ch a +:+ b) with (String ch (a +:+ b)).
  cbn [bytes_of_string app]. by rewrite IH.
Qed.

Lemma countByte_app (c : ascii) (a b : string) :
  countByte c (a +:+ b) = (countByte c a + countByte c b)%nat.
Proof.
  unfold countByte. by rewrite bytes_of_string_app, List.filter_app, length_app.
Qed.

Lemma forallb_bytes_app (p : ascii -> bool) (a b : string) :
  forallb p (bytes_of_string (a +:+ b))
  = forallb p (bytes_of_string a) && forallb p (bytes_of_string b).
Proof. by rewrite bytes_of_string_app, forallb_app. Qed.

Lemma upperhex_queryByte (n : Z) : queryByte (url.upperhex n) = true.
Proof.
  unfold url.upperhex. destruct (Z.to_nat n) as [|k]; [done|].
  do 16 (destruct k as [|k]; [done|]). by destruct k.
Qed.

Lemma QueryEscape_queryBytes (s : string) :
  forallb queryByte (bytes_of_string (url.QueryEscape s)) = true.
Proof.
  induction s as [|ch s IH]; [done|]. cbn [url.QueryEscape].
  destruct (url.shouldEscape (byte_val ch)) eqn:He.
  - destruct (byte_val ch =? 32); cbn [bytes_of_string forallb];
      by rewrite ?upperhex_queryByte, IH.
  - cbn [bytes_of_string forallb]. rewrite IH, andb_true_r.
    unfold queryByte. unfold url.shouldEscape in He.
    apply negb_false_iff in He.
    destruct (url.alnum (byte_val ch)) eqn:Ha; [done|]. cbn [orb] in He |- *.
    apply bool_decide_eq_true.
    assert (Hb : byte_val ch = 45 \/ byte_val ch = 95 \/ byte_val ch = 46
                 \/ byte_val ch = 126) by lia.
    assert (Hch : ch = byte_of (byte_val ch)).
    { unfold byte_of, byte_val. by rewrite N2Z.id, ascii_N_embedding. }
    rewrite Hch.
    destruct Hb as [-> | [-> | [-> | ->]]]; vm_compute; set_solver.
Qed.

Lemma queryBytes_count (c : ascii) (s : string) :
  queryByte c = false ->
  forallb queryByte (bytes_of_string s) = true ->
  countByte c s = 0%nat.
Proof.
  intros Hc. unfold countByte. induction s as [|ch s IH]; [done|].
  cbn [bytes_of_string forallb List.filter]. intros [Hch Hs]%andb_prop.
  destruct (Ascii.eqb_spec c ch) as [->|_]; [congruence|]. by apply IH.
Qed.

Lemma login_Location (env : Env) (c : oauth2.Config) (r : http.Request) :
  http.sentHeader (value (main.oauthLoginHandler env c http.newResponseWriter r))
    "Location"
  = http.hexEscapeNonASCII (oauth2.AuthURL (oauth2.Endpoint_ c))
    +:+ (if Contains (oauth2.AuthURL (oauth2.Endpoint_ c)) "?" then "&" else "?")
    +:+ loginQuery c (main.generateRandomString env 16).
Proof.
  unfold main.oauthLoginHandler. rewrite value_ret.
  rewrite (proj2 (Redirect_found r _)).
  pose proof (generateRandomString_alnum env 16) as Halnum.
  pose proof (generateRandomString_length env 16) as Hlen.
  destruct (main.generateRandomString env 16) as [|a s] eqn:E; [discriminate Hlen|].
  rewrite AuthCodeURL_login, (QueryEscape_alnum _ Halnum). unfold loginQuery.
  rewrite !hexEscapeNonASCII_app, (hexEscapeNonASCII_alnum _ Halnum).
  rewrite QueryEscape_ascii.
  destruct (Contains _ "?"), (String.eqb (oauth2.RedirectURL c) ""),
           (0 <? oauth2.len (oauth2.Scopes c));
    rewrite ?hexEscapeNonASCII_app, ?QueryEscape_ascii; reflexivity.
Qed.

(** ** The redirect read as a URL *)

Lemma countByte_cons (c x : ascii) (s : string) :
  countByte c (String x s)
  = ((if Ascii.eqb c x then 1 else 0) + countByte c s)%nat.
Proof.
  unfold countByte. cbn [bytes_of_string List.filter].
  by destruct (Ascii.eqb c x).
Qed.

Lemma Contains_count (c : ascii) (s : string) :
  Contains s (String c EmptyString) = negb (countByte c s =? 0)%nat.
Proof.
  induction s as [|x s IH]; [done|].
  rewrite countByte_cons. cbn [Contains String.prefix].
  destruct (Ascii.eqb_spec c x) as [->|Hne].
  - destruct (ascii_dec x x) as [_|Hx]; [|done]. by destruct s.
  - destruct (ascii_dec c x) as [He|_]; [done|]. by rewrite orb_false_l.
Qed.

Lemma hex_queryByte (n : Z) : queryByte (json.hex n) = true.
Proof.
  unfold json.hex. destruct (Z.to_nat n) as [|k]; [done|].
  do 16 (destruct k as [|k]; [done|]). by destruct k.
Qed.

(** [hexEscapeNonASCII] neither adds nor removes an ASCII byte other than
    [%] and the digits it writes. *)
Lemma hexEscapeNonASCII_count (c : ascii) (s : string) :
  byte_val c < 128 ->
  queryByte c = false ->
  countByte c (http.hexEscapeNonASCII s) = countByte c s.
Proof.
  intros Hc Hq. induction s as [|x s IH]; [done|].
  cbn [http.hexEscapeNonASCII]. cbv zeta.
  destruct (Z.leb_spec 128 (byte_val x)) as [Hx|Hx].
  - rewrite !countByte_cons, IH.
    assert (Hne : forall y, queryByte y = true -> Ascii.eqb c y = false).
    { intros y Hy. destruct (Ascii.eqb_spec c y) as [->|]; congruence. }
    rewrite (Hne "%"%char eq_refl), !(Hne _ (hex_queryByte _)).
    destruct (Ascii.eqb_spec c x) as [->|_]; [lia|done].
  - by rewrite !countByte_cons, IH.
Qed.

Lemma cutAt_none (c : ascii) (s : string) :
  countByte c s = 0%nat -> cutAt c s = (s, None).
Proof.
  induction s as [|x s IH]; [done|]. rewrite countByte_cons. cbn [cutAt].
  destruct (Ascii.eqb c x); [done|]. intros H. by rewrite IH.
Qed.

Lemma cutAt_some (c : ascii) (s : string) :
  countByte c s <> 0%nat -> exists before after, cutAt c s = (before, Some after).
Proof.
  induction s as [|x s IH]; [done|]. rewrite countByte_cons. cbn [cutAt].
  destruct (Ascii.eqb c x); [by eexists _, _|].
  intros H. destruct (IH H) as (b & a & ->). by eexists _, _.
Qed.

Lemma cutAt_app_some (c : ascii) (s t before after : string) :
  cutAt c s = (before, Some after) ->
  cutAt c (s +:+ t) = (before, Some (after +:+ t)).
Proof.
  revert before. induction s as [|x s IH]; intros before; [done|].
  change (String x s +:+ t) with (String x (s +:+ t)). cbn [cutAt].
  destruct (Ascii.eqb c x); [by intros [= <- <-]|].
  destruct (cutAt c s) as [b [a|]] eqn:E; [|done].
  intros [= <- <-]. by rewrite (IH b eq_refl).
Qed.

Lemma cutAt_app_none (c : ascii) (s t : string) :
  countByte c s = 0%nat ->
  cutAt c (s +:+ String c t) = (s, Some t).
Proof.
  induction s as [|x s IH].
  - intros _. change (EmptyString +:+ String c t) with (String c t).
    cbn [cutAt]. by rewrite Ascii.eqb_refl.
  - rewrite countByte_cons.
    change (String x s +:+ String c t) with (String x (s +:+ String c t)).
    cbn [cutAt]. destruct (Ascii.eqb c x); [done|].
    intros H. by rewrite (IH H).
Qed.

Lemma splitOn_cons (c : ascii) (s : string) :
  exists piece pieces, splitOn c s = piece :: pieces.
Proof.
  destruct s as [|x s]; [by eexists _, _|]. cbn [splitOn].
  destruct (Ascii.eqb c x); [by eexists _, _|].
  destruct (splitOn c s); by eexists _, _.
Qed.

Lemma splitOn_app (c : ascii) (s t : string) :
  splitOn c (s +:+ String c t) = splitOn c s ++ splitOn c t.
Proof.
  induction s as [|x s IH].
  - change (EmptyString +:+ String c t) with (String c t).
    cbn [splitOn]. by rewrite Ascii.eqb_refl.
  - change (String x s +:+ String c t) with (String x (s +:+ String c t)).
    cbn [splitOn]. rewrite IH. destruct (Ascii.eqb c x); [done|].
    by destruct (splitOn_cons c s) as (p & ps & ->).
Qed.

Lemma splitOn_none (c : ascii) (s : string) :
  countByte c s = 0%nat -> splitOn c s = [s].
Proof.
  induction s as [|x s IH]; [done|]. rewrite countByte_cons. cbn [splitOn].
  destruct (Ascii.eqb c x); [done|]. intros H. by rewrite (IH H).
Qed.

Lemma splitOn_Join (c : ascii) (pieces : list string) :
  pieces <> [] ->
  Forall (fun piece => countByte c piece = 0%nat) pieces ->
  splitOn c (Join pieces (String c EmptyString)) = pieces.
Proof.
  induction pieces as [|p [|q l] IH]; [done| |].
  - intros _ [Hp _]%Forall_cons. by apply splitOn_none.
  - intros _ [Hp Hl]%Forall_cons.
    change (Join (p :: q :: l) (String c EmptyString))
      with (p +:+ String c EmptyString +:+ Join (q :: l) (String c EmptyString)).
    change (String c EmptyString +:+ Join (q :: l) (String c EmptyString))
      with (String c (Join (q :: l) (String c EmptyString))).
    rewrite splitOn_app, (splitOn_none _ _ Hp), IH; done.
Qed.

Lemma Join_count (c : ascii) (pieces : list string) (sep : string) :
  countByte c sep = 0%nat ->
  Forall (fun piece => countByte c piece = 0%nat) pieces ->
  countByte c (Join pieces sep) = 0%nat.
Proof.
  intros Hsep HF. induction HF as [|p l Hp Hl IH]; [done|].
  destruct l as [|q l]; [done|].
  change (Join (p :: q :: l) sep) with (p +:+ sep +:+ Join (q :: l) sep).
  by rewrite !countByte_app, Hp, Hsep, IH.
Qed.

Lemma keyValue_pair (key value : string) :
  countByte "=" key = 0%nat ->
  keyValue (key +:+ "=" +:+ value) = (key, value).
Proof.
  intros H. unfold keyValue.
  change ("=" +:+ value) with (String "="%char value).
  by rewrite (cutAt_app_none _ _ _ H).
Qed.

(** The query of the redirect is its parameters, each written [key=value],
    joined by [&]. *)
Lemma loginQuery_Join (c : oauth2.Config) (state : string) :
  loginQuery c state
  = Join (map (fun kv : string * string => kv.1 +:+ "=" +:+ kv.2) (loginParams c state))
      "&".
Proof.
  unfold loginQuery, loginParams.
  destruct (String.eqb (oauth2.RedirectURL c) ""),
           (0 <? oauth2.len (oauth2.Scopes c));
    cbn [app map Join fst snd]; rewrite ?append_assoc; reflexivity.
Qed.

Lemma alnum_queryBytes (s : string) :
  Forall (fun ch => url.alnum (byte_val ch) = true) (bytes_of_string s) ->
  forallb queryByte (bytes_of_string s) = true.
Proof.
  induction s as [|ch s IH]; [done|]. cbn [bytes_of_string forallb].
  intros [Hch Hs]%Forall_cons. unfold queryByte at 1. rewrite Hch.
  by apply IH.
Qed.

Lemma loginParams_pieces (c : oauth2.Config) (state : string) :
  Forall (fun ch => url.alnum (byte_val ch) = true) (bytes_of_string state) ->
  Forall (fun kv : string * string =>
            countByte "=" kv.1 = 0%nat
            /\ countByte "&" (kv.1 +:+ "=" +:+ kv.2) = 0%nat
            /\ countByte "#" (kv.1 +:+ "=" +:+ kv.2) = 0%nat)
    (loginParams c state).
Proof.
  intros Hstate%alnum_queryBytes.
  assert (Hv : forall (k v : string) (x : ascii),
             queryByte x = false ->
             countByte x (k +:+ "=") = 0%nat ->
             forallb queryByte (bytes_of_string v) = true ->
             countByte x (k +:+ "=" +:+ v) = 0%nat).
  { intros k v x Hx Hk Hq. rewrite <- append_assoc, countByte_app, Hk.
    by rewrite (queryBytes_count x v Hx Hq). }
  unfold loginParams.
  repeat (apply Forall_app; split);
    repeat match goal with
           | |- context [if ?b then _ else _] => destruct b
           | |- Forall _ (_ :: _) => apply List.Forall_cons
           | |- Forall _ [] => apply List.Forall_nil
           end;
    cbn [fst snd]; (split; [reflexivity|]);
    split; apply Hv; try reflexivity; try apply QueryEscape_queryBytes; done.
Qed.

(** The parameters of the redirect, when no [#] of the authorization URL
    turns the rest into a fragment: those the authorization URL may bring
    along itself, after a [?] of its own, and then those of the login. *)
Lemma login_queryParams (env : Env) (c : oauth2.Config) (r : http.Request) :
  countByte "#" (oauth2.AuthURL (oauth2.Endpoint_ c)) = 0%nat ->
  exists front,
    queryParams
      (http.sentHeader (value (main.oauthLoginHandler env c http.newResponseWriter r))
         "Location")
    = front ++ loginParams c (main.generateRandomString env 16)
    /\ (countByte "?" (oauth2.AuthURL (oauth2.Endpoint_ c)) = 0%nat -> front = []).
Proof.
  intros Hfrag. rewrite login_Location.
  set (u := oauth2.AuthURL (oauth2.Endpoint_ c)) in *.
  set (state := main.generateRandomString env 16).
  pose proof (loginParams_pieces c state (generateRandomString_alnum env 16)) as Hp.
  set (fmt := fun kv : string * string => kv.1 +:+ "=" +:+ kv.2).
  assert (Hsplit : splitOn "&" (loginQuery c state) = map fmt (loginParams c state)).
  { rewrite loginQuery_Join. apply splitOn_Join.
    - unfold loginParams. done.
    - apply Forall_map. eapply Forall_impl; [exact Hp|]. by intros kv (_ & H & _). }
  assert (Hkv : map keyValue (map fmt (loginParams c state)) = loginParams c state).
  { clear Hsplit. induction Hp as [|[k v] l (H & _) _ IH]; [done|].
    cbn [map]. rewrite IH. unfold fmt at 1. cbn [fst snd].
    by rewrite keyValue_pair. }
  assert (Hq : countByte "#" (loginQuery c state) = 0%nat).
  { rewrite loginQuery_Join. fold fmt.
    assert (HF : Forall (fun piece => countByte "#" piece = 0%nat)
                   (map fmt (loginParams c state))).
    { apply Forall_map. eapply Forall_impl; [exact Hp|]. by intros kv (_ & _ & H). }
    by apply Join_count. }
  assert (Hh : countByte "#" (http.hexEscapeNonASCII u) = 0%nat).
  { rewrite hexEscapeNonASCII_count; [done|by vm_compute|done]. }
  assert (Hm : countByte "?" (http.hexEscapeNonASCII u) = countByte "?" u).
  { apply hexEscapeNonASCII_count; [by vm_compute|done]. }
  unfold queryParams, urlQuery.
  change (Contains u "?") with (Contains u (String "?"%char EmptyString)).
  rewrite Contains_count.
  destruct (Nat.eqb_spec (countByte "?" u) 0) as [Hno|Hyes]; cbn [negb].
  - exists []. split; [|done].
    rewrite (cutAt_none "#") by (by rewrite !countByte_app, Hh, Hq).
    cbn [fst]. change ("?" +:+ loginQuery c state) with (String "?"%char (loginQuery c state)).
    rewrite cutAt_app_none by congruence. cbn [snd].
    by rewrite Hsplit, Hkv.
  - rewrite (cutAt_none "#") by (by rewrite !countByte_app, Hh, Hq).
    cbn [fst].
    destruct (cutAt_some "?" (http.hexEscapeNonASCII u)) as (before & after & Hcut);
      [congruence|].
    rewrite (cutAt_app_some _ _ _ _ _ Hcut). cbn [snd].
    change ("&" +:+ loginQuery c state) with (String "&"%char (loginQuery c state)).
    rewrite splitOn_app, map_app, Hsplit, Hkv.
    eexists. split; [reflexivity|]. intros H. by destruct Hyes.
Qed.


(** * The claims of the specification *)

(** C1, as the code has it: each database handler answers 200 with
    [Content-Type: application/json] and a body that is exactly what
    [json.Marshal] returns for the slice the database layer handed back,
    and [json.Marshal] never fails at these types, so that the 500 branch is
    not taken.  The body is the JSON array of the elements when the slice is
    not nil, and the text [null] when it is nil. *)
Theorem C1_db_handlers_write_marshalled_slice (env : Env) (r : http.Request) :
  let get := url.Values_Get (http.Query r) in
  let w0 := http.newResponseWriter in
  (forall slot, strconv.Atoi (get "slot") = Ok slot ->
     let classroom := GetFreeClass env slot (get "day") in
     exists b, json.Marshal_strings classroom = Ok b
       /\ responds (value (main.freeClassHandler env w0 r)) 200 applicationJSON b
       /\ b = match classroom with
              | Some elems => jsonArray (map json.appendString elems)
              | None => "null"
              end)
  /\ (let slots := GetFreeSlot env (get "class") (get "day") in
      exists b, json.Marshal_ints slots = Ok b
        /\ responds (value (main.freeSlotHandler env w0 r)) 200 applicationJSON b
        /\ b = match slots with
               | Some elems => jsonArray (map strconv.FormatInt elems)
               | None => "null"
               end)
  /\ (let subject := GetTimetableByDay env (get "class") (get "day") in
      exists b, json.Marshal_strings subject = Ok b
        /\ responds (value (main.dayTimetableHandler env w0 r)) 200 applicationJSON b
        /\ b = match subject with
               | Some elems => jsonArray (map json.appendString elems)
               | None => "null"
               end).
Proof.
  intros get w0. split; [|split].
  - intros slot H classroom.
    eexists. split; [apply Marshal_strings_total|]. split; [|done].
    destruct (freeClassHandler_ok env r slot H) as [Hr _].
    by destruct classroom eqn:E; subst classroom get; rewrite E in Hr.
  - intros slots.
    eexists. split; [apply Marshal_ints_total|]. split; [|done].
    destruct (freeSlotHandler_ok env r) as [Hr _].
    by destruct slots eqn:E; subst slots get; rewrite E in Hr.
  - intros subject.
    eexists. split; [apply Marshal_strings_total|]. split; [|done].
    destruct (dayTimetableHandler_ok env r) as [Hr _].
    by destruct subject eqn:E; subst subject get; rewrite E in Hr.
Qed.

(** C1 at the two round trips of the specification: the free rooms of slot 3
    on Monday and the free slots of class 10A on Tuesday. *)
Lemma C1_round_trips :
  strconv.Atoi "3" = Ok 3
  /\ http.body (value (main.freeClassHandler Sample.env http.newResponseWriter
                         Sample.freeclass_3_Mon))
     = jsonArray [quoted "Room A"; quoted "Room B"]
  /\ http.body (value (main.freeSlotHandler Sample.env http.newResponseWriter
                         Sample.freeslot_10A_Tue))
     = jsonArray ["1"; "4"; "6"].
Proof.
  split; [reflexivity|].
  destruct (C1_db_handlers_write_marshalled_slice Sample.env Sample.freeclass_3_Mon)
    as (Hclass & _ & _).
  destruct (Hclass 3 eq_refl) as (b1 & _ & (_ & _ & Hb1) & E1).
  destruct (C1_db_handlers_write_marshalled_slice Sample.env Sample.freeslot_10A_Tue)
    as (_ & (b2 & _ & (_ & _ & Hb2) & E2) & _).
  split.
  - rewrite Hb1, E1. reflexivity.
  - rewrite Hb2, E2. reflexivity.
Defined.

(** C1 as stated fails on a nil slice: the handler then writes [null],
    which is the JSON array of no list of elements. *)
Lemma C1_nil_slice_is_not_an_array :
  GetFreeSlot Sample.env "9Z" "Tue" = None
  /\ responds (value (main.freeSlotHandler Sample.env http.newResponseWriter
                        Sample.freeslot_9Z_Tue))
       200 applicationJSON "null"
  /\ forall elems : list Z,
       http.body (value (main.freeSlotHandler Sample.env http.newResponseWriter
                           Sample.freeslot_9Z_Tue))
       <> jsonArray (map strconv.FormatInt elems).
Proof. repeat split. intros elems. vm_compute. discriminate. Qed.

(** C2, as the code has it: when [slot] does not parse as an integer the
    handler answers 400 through [http.Error], whose body is the message
    [Invalid slot value] followed by a newline, and it calls nothing: the
    database is not asked. *)
Theorem C2_invalid_slot_is_400
    (env : Env) (r : http.Request) (e : strconv.NumError) :
  strconv.Atoi (url.Values_Get (http.Query r) "slot") = Err e ->
  let m := main.freeClassHandler env http.newResponseWriter r in
  http.status (value m) = 400
  /\ http.body (value m) = "Invalid slot value" +:+ newline
  /\ events m = []
  /\ forall slot day, EvGetFreeClass slot day ∉ events m.
Proof.
  intros H m. destruct (freeClassHandler_err env r e H) as [(Hs & _ & Hb) He].
  fold m in Hs, Hb, He. repeat split; try done.
  intros slot day. rewrite He. apply not_elem_of_nil.
Qed.

Lemma C2_witness :
  strconv.Atoi "three"
  = Err {| strconv.Func := "Atoi"; strconv.Num := "three";
           strconv.Kind := strconv.ErrSyntax |}
  /\ http.status (value (main.freeClassHandler Sample.env http.newResponseWriter
                           Sample.freeclass_three)) = 400
  /\ events (main.freeClassHandler Sample.env http.newResponseWriter
               Sample.freeclass_three) = [].
Proof.
  split; [reflexivity|].
  destruct (C2_invalid_slot_is_400 Sample.env Sample.freeclass_three
              {| strconv.Func := "Atoi"; strconv.Num := "three";
                 strconv.Kind := strconv.ErrSyntax |} eq_refl)
    as (Hs & _ & He & _).
  exact (conj Hs He).
Defined.

(** C2 as stated fails on the body: it is not the bare message. *)
Lemma C2_body_ends_with_newline :
  http.status (value (main.freeClassHandler Sample.env http.newResponseWriter
                        Sample.freeclass_three)) = 400
  /\ http.body (value (main.freeClassHandler Sample.env http.newResponseWriter
                         Sample.freeclass_three))
     = "Invalid slot value" +:+ newline
  /\ http.body (value (main.freeClassHandler Sample.env http.newResponseWriter
                         Sample.freeclass_three))
     <> "Invalid slot value".
Proof. repeat split. vm_compute. discriminate. Qed.

(** C3: when the exchange of the authorization code fails, the handler
    answers 400 (so neither 403 nor 500) with
    [Content-Type: text/plain; charset=utf-8] and the text of the error as
    body; the run consists of the exchange and one log line, so no request
    to the Graph API is made. *)
Theorem C3_exchange_failure_is_400
    (env : Env) (c : oauth2.Config) (r : http.Request) (err : error) :
  let code := url.Values_Get (http.Query r) "code" in
  Exchange env c (http.Context r) code = Err err ->
  let m := main.oauthExchangeHandler env c http.newResponseWriter r in
  responds (value m) 400 textPlain err
  /\ http.status (value m) <> 403
  /\ http.status (value m) <> 500
  /\ events m
     = [EvExchange (http.Context r) code;
        EvLog ("Error while exchanging authorization code " +:+ err +:+ newline)]
  /\ forall req, EvDo req ∉ events m.
Proof.
  intros code H m. destruct (exchange_failed env c r err H) as [Hr He].
  fold m in Hr, He. split; [done|].
  destruct Hr as (Hs & _). rewrite Hs, He.
  repeat split; try done.
  intros req. rewrite !elem_of_cons, elem_of_nil.
  intros [Heq | [Heq | []]]; discriminate Heq.
Qed.

Lemma C3_witness :
  responds (value (main.oauthExchangeHandler Sample.env Sample.oauthConfig
                     http.newResponseWriter Sample.exchange_expired))
    400 textPlain "oauth2: cannot fetch token: 400 Bad Request".
Proof.
  exact (proj1 (C3_exchange_failure_is_400 Sample.env Sample.oauthConfig
                  Sample.exchange_expired
                  "oauth2: cannot fetch token: 400 Bad Request" eq_refl)).
Defined.

(** C4, as the code has it: when the exchange succeeds and the profile
    request or, after it, the organization request fails, the handler
    answers 403 with [Content-Type: text/plain; charset=utf-8] and the text
    of that error as body.  The organization request is made only when the
    profile request has succeeded.  The text is [unexpected response status: ]
    followed by the status text of the provider when the provider answered
    with a status other than 200; when the request could not be sent or the
    body could not be read it is the text of that failure. *)
Theorem C4_graph_failure_is_403
    (env : Env) (c : oauth2.Config) (r : http.Request)
    (token : oauth2.Token) (err : error) :
  let code := url.Values_Get (http.Query r) "code" in
  let graph := main.requestGraphAPI env (oauth2.AccessToken token) in
  Exchange env c (http.Context r) code = Ok token ->
  value (graph "me") = Err err
  \/ (exists profile, value (graph "me") = Ok profile)
     /\ value (graph "organization") = Err err ->
  let m := main.oauthExchangeHandler env c http.newResponseWriter r in
  responds (value m) 403 textPlain err
  /\ (exists msg,
        events m
        = EvExchange (http.Context r) code :: events (graph "me")
          ++ match value (graph "me") with
             | Ok _ => events (graph "organization")
             | Err _ => []
             end
          ++ [EvLog msg])
  /\ (forall endpoint req resp,
        NewRequest env "GET" (graphURL endpoint) = Ok req ->
        Do env (withBearer req (oauth2.AccessToken token)) = Ok resp ->
        http.StatusCode resp <> 200 ->
        value (graph endpoint)
        = Err ("unexpected response status: " +:+ http.Status resp))
  /\ (forall endpoint req resp,
        NewRequest env "GET" (graphURL endpoint) = Ok req ->
        Do env (withBearer req (oauth2.AccessToken token)) = Ok resp ->
        http.StatusCode resp = 200 ->
        value (graph endpoint) = http.Body resp)
  /\ (forall endpoint req e,
        NewRequest env "GET" (graphURL endpoint) = Ok req ->
        Do env (withBearer req (oauth2.AccessToken token)) = Err e ->
        value (graph endpoint) = Err e).
Proof.
  intros code graph H Hfail m.
  split; [|split; [|split; [|split]]].
  - destruct Hfail as [Hme | [[profile Hme] Horg]].
    + apply (profile_failed env c r token err H Hme).
    + apply (organization_failed env c r token profile err H Hme Horg).
  - destruct Hfail as [Hme | [[profile Hme] Horg]].
    + destruct (profile_failed env c r token err H Hme) as [_ He].
      eexists. subst m graph code. rewrite He, Hme. reflexivity.
    + destruct (organization_failed env c r token profile err H Hme Horg) as [_ He].
      eexists. subst m graph code. rewrite He, Hme. reflexivity.
  - intros endpoint req resp. apply requestGraphAPI_status.
  - intros endpoint req resp. apply requestGraphAPI_body.
  - intros endpoint req e. apply requestGraphAPI_transport.
Qed.

Lemma C4_witness :
  responds (value (main.oauthExchangeHandler Sample.forbidden Sample.oauthConfig
                     http.newResponseWriter Sample.exchange_good))
    403 textPlain "unexpected response status: 403 Forbidden".
Proof.
  refine (proj1 (C4_graph_failure_is_403 Sample.forbidden Sample.oauthConfig
                   Sample.exchange_good Sample.token
                   "unexpected response status: 403 Forbidden" eq_refl _)).
  right. split; [by exists Sample.profile | reflexivity].
Defined.

(** C4 as stated fails on the body when the provider's answer is not what
    made the call fail: with the Graph API out of reach there is no answer
    and the body is the text of the transport error, and when the body of a
    [200 OK] answer breaks off the body is the text of the read error, in
    which the status text does not occur. *)
Lemma C4_body_without_status_text :
  (forall req, Do Sample.down req = Err "dial tcp: lookup graph.microsoft.com: no such host")
  /\ responds (value (main.oauthExchangeHandler Sample.down Sample.oauthConfig
                        http.newResponseWriter Sample.exchange_good))
       403 textPlain "dial tcp: lookup graph.microsoft.com: no such host"
  /\ (forall req, exists resp,
        Do Sample.truncated req = Ok resp /\ http.Status resp = "200 OK")
  /\ responds (value (main.oauthExchangeHandler Sample.truncated Sample.oauthConfig
                        http.newResponseWriter Sample.exchange_good))
       403 textPlain "unexpected EOF"
  /\ Contains
       (http.body (value (main.oauthExchangeHandler Sample.truncated Sample.oauthConfig
                            http.newResponseWriter Sample.exchange_good)))
       "200 OK" = false.
Proof.
  repeat split. intros req. eexists. split; reflexivity.
Qed.

(** C5: when the exchange and both requests to the Graph API succeed, the
    handler answers 200 with [Content-Type: application/json] and a body made
    of the profile payload, one newline and the organization payload, in
    this order. *)
Theorem C5_exchange_success_body
    (env : Env) (c : oauth2.Config) (r : http.Request)
    (token : oauth2.Token) (profile organization : string) :
  let code := url.Values_Get (http.Query r) "code" in
  let graph := main.requestGraphAPI env (oauth2.AccessToken token) in
  Exchange env c (http.Context r) code = Ok token ->
  value (graph "me") = Ok profile ->
  value (graph "organization") = Ok organization ->
  responds (value (main.oauthExchangeHandler env c http.newResponseWriter r))
    200 applicationJSON (profile +:+ newline +:+ organization).
Proof.
  intros code graph H Hme Horg.
  apply (exchange_succeeded env c r token profile organization H Hme Horg).
Qed.

Lemma C5_witness :
  responds (value (main.oauthExchangeHandler Sample.env Sample.oauthConfig
                     http.newResponseWriter Sample.exchange_good))
    200 applicationJSON (Sample.profile +:+ newline +:+ Sample.organization).
Proof.
  exact (C5_exchange_success_body Sample.env Sample.oauthConfig Sample.exchange_good
           Sample.token Sample.profile Sample.organization
           eq_refl eq_refl eq_refl).
Defined.




(** C7: two requests to [/oauth/exchange] that differ at most in the query
    parameter [state] get the same answer, and the handler makes the same
    calls for both: it never reads [state]. *)
Theorem C7_exchange_ignores_state
    (env : Env) (c : oauth2.Config) (w : http.ResponseWriter)
    (r1 r2 : http.Request) :
  same_but_state r1 r2 ->
  main.oauthExchangeHandler env c w r1 = main.oauthExchangeHandler env c w r2.
Proof.
  intros (_ & _ & Hctx & Hq).
  unfold main.oauthExchangeHandler, url.Values_Get.
  by rewrite Hctx, (Hq "code").
Qed.

Lemma sample_same_but_state :
  same_but_state Sample.exchange_good Sample.exchange_forged.
Proof.
  repeat split. intros key Hkey.
  unfold Sample.exchange_good, Sample.exchange_forged, Sample.get. simpl.
  rewrite !lookup_insert. case_decide; [done|]. by case_decide.
Defined.

Lemma C7_witness :
  same_but_state Sample.exchange_good Sample.exchange_forged
  /\ main.oauthExchangeHandler Sample.env Sample.oauthConfig http.newResponseWriter
       Sample.exchange_good
     = main.oauthExchangeHandler Sample.env Sample.oauthConfig http.newResponseWriter
         Sample.exchange_forged.
Proof.
  split; [exact sample_same_but_state|].
  exact (C7_exchange_ignores_state Sample.env Sample.oauthConfig
           http.newResponseWriter Sample.exchange_good Sample.exchange_forged
           sample_same_but_state).
Defined.

(** C8, as the code has it: the 200 answers of the exchange handler and of
    the three database handlers carry [Content-Type: application/json];
    every error answer carries [text/plain; charset=utf-8]: the two error
    paths of the exchange (400 and 403) and also the 400 for an invalid
    slot, which goes out through [http.Error], as a 500 of a database
    handler would. *)
Theorem C8_content_types (env : Env) (c : oauth2.Config) (r : http.Request) :
  let answer (h : main.HandlerFunc) := value (h http.newResponseWriter r) in
  let ok_or_plain (w : http.ResponseWriter) (errors : list Z) :=
    (http.status w = 200 /\ contentType w = applicationJSON)
    \/ (http.status w ∈ errors /\ contentType w = textPlain) in
  ok_or_plain (answer (main.oauthExchangeHandler env c)) [400; 403]
  /\ ok_or_plain (answer (main.freeClassHandler env)) [400]
  /\ ok_or_plain (answer (main.freeSlotHandler env)) []
  /\ ok_or_plain (answer (main.dayTimetableHandler env)) []
  /\ (forall msg code,
        responds (http.Error http.newResponseWriter msg code)
          code textPlain (msg +:+ newline)).
Proof.
  intros answer ok_or_plain. subst ok_or_plain answer. cbv beta.
  split; [|split; [|split; [|split]]].
  - destruct (exchange_cases env c r) as [H | [[Hs Hc] | [Hs Hc]]].
    + by left.
    + right. rewrite Hs. split; [|done]. rewrite !elem_of_cons. by left.
    + right. rewrite Hs. split; [|done]. rewrite !elem_of_cons. by right; left.
  - destruct (strconv.Atoi (url.Values_Get (http.Query r) "slot")) as [slot|e] eqn:H.
    + left. destruct (freeClassHandler_ok env r slot H) as [(? & ? & _) _]. done.
    + right. destruct (freeClassHandler_err env r e H) as [(Hs & ? & _) _].
      rewrite Hs. split; [|done]. rewrite !elem_of_cons. by left.
  - left. destruct (freeSlotHandler_ok env r) as [(? & ? & _) _]. done.
  - left. destruct (dayTimetableHandler_ok env r) as [(? & ? & _) _]. done.
  - apply Error_responds.
Qed.

(** C8 as stated fails on the 400 for an invalid slot: its content type is
    [text/plain; charset=utf-8], not [application/json]. *)
Lemma C8_invalid_slot_is_text_plain :
  http.status (value (main.freeClassHandler Sample.env http.newResponseWriter
                        Sample.freeclass_three)) = 400
  /\ contentType (value (main.freeClassHandler Sample.env http.newResponseWriter
                           Sample.freeclass_three))
     = "text/plain; charset=utf-8"
  /\ contentType (value (main.freeClassHandler Sample.env http.newResponseWriter
                           Sample.freeclass_three))
     <> "application/json".
Proof. repeat split. vm_compute. discriminate. Qed.

(** C9: when [config.json] cannot be read, or [json.Unmarshal] rejects its
    content, the start ends in [log.Fatal]: the diagnostic is logged, the
    process exits, and it neither listens nor answers a request.  Otherwise
    [init] builds the configuration from the five parsed fields, and no
    request served afterwards changes it. *)
Theorem C9_startup (env : Env) :
  match ReadFile env main.configFile with
  | Err err => dies_with env ("Error reading JSON file:" +:+ err)
  | Ok file =>
      match Unmarshal env file with
      | Err err => dies_with env ("Error unmarshalling JSON:" +:+ err)
      | Ok jsonData =>
          let config :=
            {| oauth2.ClientID := ClientID jsonData;
               oauth2.ClientSecret := ClientSecret jsonData;
               oauth2.Endpoint_ := oauth2.AzureADEndpoint (Tenant jsonData);
               oauth2.RedirectURL := RedirectURL jsonData;
               oauth2.Scopes := Scopes jsonData |} in
          value (main.init env main.start)
          = {| main.oauthConfig := Some config; main.exited := false;
               main.listening := false |}
          /\ events (main.init env main.start) = []
          /\ main.oauthConfig (value (main.run env)) = Some config
          /\ forall reqs,
               main.oauthConfig (value (main.serve (value (main.run env)) reqs)).1
               = Some config
      end
  end.
Proof.
  destruct (ReadFile env main.configFile) as [file|err] eqn:H.
  - destruct (Unmarshal env file) as [jsonData|err] eqn:Hp.
    + intros config.
      assert (Hinit : main.init env main.start
                      = ret {| main.oauthConfig := Some config; main.exited := false;
                               main.listening := false |}).
      { unfold main.init. by rewrite H, Hp. }
      assert (Hrun : main.oauthConfig (value (main.run env)) = Some config).
      { unfold main.run. rewrite Hinit. io_norm. simpl.
        unfold main.main. io_norm.
        by destruct (ListenAndServe env main.port). }
      repeat split; try (by rewrite Hinit); try done.
      intros reqs. by rewrite serve_keeps_process.
    + by apply (run_fatal_parse env file).
  - by apply run_fatal_read.
Qed.

(** C10, as the code has it: a query parameter that is absent reads as the
    empty string and the handler goes on with it.  The exchange handler
    starts by exchanging whatever [code] reads as, and answers 400 when the
    provider then refuses.  The handlers of [/db/freeslot] and
    [/db/daytimetable] ask the database with the values read and always
    answer 200 with what [json.Marshal] gives for the returned slice.  The
    handler of [/db/freeclass] answers 400 exactly when [slot] does not parse
    as an integer, as the empty string does not, and otherwise asks the
    database and answers 200. *)
Theorem C10_absent_parameters_read_as_empty
    (env : Env) (c : oauth2.Config) (r : http.Request) :
  let get := url.Values_Get (http.Query r) in
  let w0 := http.newResponseWriter in
  (forall key, http.Query r !! key = None -> get key = EmptyString)
  /\ (exists rest,
        events (main.oauthExchangeHandler env c w0 r)
        = EvExchange (http.Context r) (get "code") :: rest)
  /\ (forall err,
        Exchange env c (http.Context r) (get "code") = Err err ->
        http.status (value (main.oauthExchangeHandler env c w0 r)) = 400)
  /\ (responds (value (main.freeSlotHandler env w0 r)) 200 applicationJSON
        (json.encodeSlice strconv.FormatInt (GetFreeSlot env (get "class") (get "day")))
      /\ events (main.freeSlotHandler env w0 r)
         = [EvGetFreeSlot (get "class") (get "day")])
  /\ (responds (value (main.dayTimetableHandler env w0 r)) 200 applicationJSON
        (json.encodeSlice json.appendString
           (GetTimetableByDay env (get "class") (get "day")))
      /\ events (main.dayTimetableHandler env w0 r)
         = [EvGetTimetableByDay (get "class") (get "day")])
  /\ match strconv.Atoi (get "slot") with
     | Err _ =>
         http.status (value (main.freeClassHandler env w0 r)) = 400
         /\ events (main.freeClassHandler env w0 r) = []
     | Ok slot =>
         http.status (value (main.freeClassHandler env w0 r)) = 200
         /\ events (main.freeClassHandler env w0 r) = [EvGetFreeClass slot (get "day")]
     end
  /\ (exists e, strconv.Atoi EmptyString = Err e).
Proof.
  intros get w0. split; [|split; [|split; [|split; [|split; [|split]]]]].
  - intros key. apply Values_Get_absent.
  - unfold main.oauthExchangeHandler. rewrite events_bind.
    unfold main.oauthConfig_Exchange at 1. rewrite events_emit.
    eexists. reflexivity.
  - intros err H. by destruct (exchange_failed env c r err H) as [(? & _) _].
  - apply freeSlotHandler_ok.
  - apply dayTimetableHandler_ok.
  - destruct (strconv.Atoi (get "slot")) as [slot|e] eqn:H.
    + destruct (freeClassHandler_ok env r slot H) as [(? & _) ?]. done.
    + destruct (freeClassHandler_err env r e H) as [(? & _) ?]. done.
  - eexists. reflexivity.
Qed.

(** C10 as stated fails twice.  With [class] absent the database is asked
    for the class with the empty name; when it returns a nil slice the body
    is [null], which is not a JSON array.  With [code] absent the provider is
    asked to exchange the empty code; when it refuses, the answer is a 400
    although no [slot] is involved. *)
Lemma C10_absent_class_and_absent_code :
  events (main.freeSlotHandler Sample.env http.newResponseWriter Sample.freeslot_no_class)
  = [EvGetFreeSlot "" "Tue"]
  /\ responds (value (main.freeSlotHandler Sample.env http.newResponseWriter
                        Sample.freeslot_no_class))
       200 applicationJSON "null"
  /\ (forall elems : list Z,
        http.body (value (main.freeSlotHandler Sample.env http.newResponseWriter
                            Sample.freeslot_no_class))
        <> jsonArray (map strconv.FormatInt elems))
  /\ (exists rest,
        events (main.oauthExchangeHandler Sample.env Sample.oauthConfig
                  http.newResponseWriter Sample.exchange_no_code)
        = EvExchange 0 "" :: rest)
  /\ http.status (value (main.oauthExchangeHandler Sample.env Sample.oauthConfig
                           http.newResponseWriter Sample.exchange_no_code))
     = 400.
Proof.
  repeat split.
  - intros elems. vm_compute. discriminate.
  - eexists. reflexivity.
Qed.

(** * Further properties of the code *)

(** ** The slot parameter *)

Lemma digitsValue_ge (s : string) (acc : Z) :
  allDigits s = true -> 0 <= acc -> acc <= digitsValue s acc.
Proof.
  revert acc. induction s as [|c s IH]; intros acc Hd Hacc; [simpl; lia|].
  simpl in Hd. apply andb_prop in Hd as [Hc Hs]. unfold isDigit in Hc.
  simpl. specialize (IH (acc * 10 + (byte_val c - 48)) Hs). lia.
Qed.

Lemma parseUintLoop_spec (s : string) (acc n : Z) :
  0 <= acc <= strconv.maxUint64 ->
  strconv.parseUintLoop s acc = Ok n
  <-> allDigits s = true /\ n = digitsValue s acc /\ n <= strconv.maxUint64.
Proof.
  revert acc. induction s as [|c s IH]; intros acc Hacc.
  - simpl. split; [intros [= <-]; lia | intros (_ & -> & _); done].
  - cbn [strconv.parseUintLoop allDigits digitsValue].
    unfold strconv.digit, isDigit.
    destruct ((48 <=? byte_val c) && (byte_val c <=? 57)) eqn:Hc; cbn [andb].
    2:{ split; [discriminate | intros (H & _); discriminate]. }
    assert (Hd : 0 <= byte_val c - 48 <= 9) by lia.
    set (d := byte_val c - 48) in *.
    assert (Hmax : strconv.maxUint64 = 18446744073709551615) by reflexivity.
    assert (Hcut : strconv.maxUint64 / 10 + 1 = 1844674407370955162) by reflexivity.
    rewrite Hcut.
    destruct (1844674407370955162 <=? acc) eqn:H1.
    { split; [discriminate|]. intros (Hs & -> & Hle).
      pose proof (digitsValue_ge s (acc * 10 + d) Hs). lia. }
    destruct (strconv.maxUint64 <? acc * 10 + d) eqn:H2.
    { split; [discriminate|]. intros (Hs & -> & Hle).
      pose proof (digitsValue_ge s (acc * 10 + d) Hs). lia. }
    apply IH. lia.
Qed.

Lemma unsignedNumeral_spec (s : string) (n : Z) :
  s <> EmptyString ->
  strconv.parseUintLoop s 0 = Ok n
  <-> unsignedNumeral s = Some n /\ n <= strconv.maxUint64.
Proof.
  intros Hs. rewrite parseUintLoop_spec by (unfold strconv.maxUint64; lia).
  unfold unsignedNumeral. destruct s as [|c r]; [done|].
  destruct (allDigits (String c r)); split.
  - intros (_ & -> & ?). done.
  - intros ([= <-] & ?). done.
  - intros (? & _). done.
  - intros (? & _). done.
Qed.

Lemma unsignedNumeral_nonneg (s : string) (n : Z) :
  unsignedNumeral s = Some n -> 0 <= n.
Proof.
  unfold unsignedNumeral. destruct s as [|c r]; [done|].
  destruct (allDigits (String c r)) eqn:H; [|done].
  intros [= <-]. change (0 <= digitsValue (String c r) 0).
  apply digitsValue_ge; [done | lia].
Qed.

Lemma parseInt_spec (s : string) (n : Z) :
  strconv.parseInt s = Ok n <-> numeral s = Some n /\ inInt n.
Proof.
  unfold strconv.parseInt, numeral, inInt.
  destruct s as [|c r]; [split; [discriminate | intros [? _]; discriminate]|].
  change (2 ^ (strconv.intSize - 1)) with (2 ^ 63).
  destruct (Ascii.eqb c "-") eqn:Hm; cbn [orb negb andb].
  - destruct r as [|c' r']; [split; [discriminate | intros [? _]; discriminate]|].
    set (r := String c' r') in *.
    destruct (strconv.parseUintLoop r 0) as [un|k] eqn:Hp.
    + apply unsignedNumeral_spec in Hp as [Hu Hmax]; [|done]. rewrite Hu.
      pose proof (unsignedNumeral_nonneg _ _ Hu). cbn [fmap option_fmap option_map].
      destruct (2 ^ 63 <? un) eqn:Hc.
      * split; [discriminate|]. intros [[= <-] ?]. lia.
      * split; [intros [= <-]; split; [done | lia] | intros [[= <-] ?]; done].
    + split; [discriminate|]. intros [Hn Hr].
      destruct (unsignedNumeral r) as [un|] eqn:Hu; [|discriminate].
      cbn in Hn. injection Hn as <-.
      pose proof (unsignedNumeral_nonneg _ _ Hu).
      assert (strconv.parseUintLoop r 0 = Ok un) as Hp'.
      { apply unsignedNumeral_spec; [done|]. split; [done|].
        unfold strconv.maxUint64. lia. }
      congruence.
  - assert (Hgen : forall t, t <> EmptyString ->
               match t with
               | EmptyString => Err strconv.ErrSyntax
               | _ =>
                   match strconv.parseUintLoop t 0 with
                   | Ok un =>
                       if 2 ^ 63 <=? un then Err strconv.ErrRange else Ok un
                   | Err k => Err k
                   end
               end = Ok n
               <-> unsignedNumeral t = Some n /\ - 2 ^ 63 <= n < 2 ^ 63).
    { intros t Ht. destruct t as [|c' r']; [done|]. set (t := String c' r') in *.
      destruct (strconv.parseUintLoop t 0) as [un|k] eqn:Hp.
      + apply unsignedNumeral_spec in Hp as [Hu Hmax]; [|done]. rewrite Hu.
        pose proof (unsignedNumeral_nonneg _ _ Hu).
        destruct (2 ^ 63 <=? un) eqn:Hc.
        * split; [discriminate|]. intros [[= <-] ?]. lia.
        * split; [intros [= <-]; split; [done | lia] | intros [[= <-] ?]; done].
      + split; [discriminate|]. intros [Hu Hr].
        pose proof (unsignedNumeral_nonneg _ _ Hu).
        assert (strconv.parseUintLoop t 0 = Ok n) as Hp'.
        { apply unsignedNumeral_spec; [done|]. split; [done|].
          unfold strconv.maxUint64. lia. }
        congruence. }
    destruct (Ascii.eqb c "+") eqn:Hplus.
    + destruct r as [|c' r']; [split; [discriminate | intros [? _]; discriminate]|].
      exact (Hgen (String c' r') ltac:(done)).
    + exact (Hgen (String c r) ltac:(done)).
Qed.

Lemma Atoi_spec (s : string) (n : Z) :
  strconv.Atoi s = Ok n <-> numeral s = Some n /\ inInt n.
Proof.
  rewrite <- parseInt_spec. unfold strconv.Atoi.
  destruct (strconv.parseInt s); split; congruence.
Qed.

Lemma string_of_uint_digits (d : Decimal.uint) :
  allDigits (NilEmpty.string_of_uint d) = true.
Proof. induction d; simpl; try done. Qed.

Lemma digitsValue_of_uint_acc (d : Decimal.uint) (acc : positive) :
  digitsValue (NilEmpty.string_of_uint d) (Z.pos acc)
  = Z.pos (Pos.of_uint_acc d acc).
Proof.
  revert acc. induction d; intros acc; [done|..];
    cbn [NilEmpty.string_of_uint digitsValue Pos.of_uint_acc];
    rewrite <- IHd; f_equal;
    match goal with
    | |- context [byte_val ?c] =>
        let v := eval vm_compute in (byte_val c) in change (byte_val c) with v
    end; lia.
Qed.

Lemma digitsValue_of_uint (d : Decimal.uint) :
  digitsValue (NilEmpty.string_of_uint d) 0 = Z.of_N (Pos.of_uint d).
Proof.
  induction d; simpl; try done;
    match goal with
    | |- digitsValue _ ?a = _ =>
        let p := eval vm_compute in (Z.to_pos a) in
        change a with (Z.pos p); apply digitsValue_of_uint_acc
    end.
Qed.

Lemma unsignedNumeral_to_uint (p : positive) :
  unsignedNumeral (NilEmpty.string_of_uint (Pos.to_uint p)) = Some (Z.pos p).
Proof.
  unfold unsignedNumeral.
  rewrite string_of_uint_digits, digitsValue_of_uint, DecimalPos.Unsigned.of_to.
  pose proof (DecimalPos.Unsigned.to_uint_nonnil p) as Hnil.
  by destruct (Pos.to_uint p).
Qed.

Lemma numeral_unsigned (s : string) :
  allDigits s = true -> numeral s = unsignedNumeral s.
Proof.
  destruct s as [|c r]; [done|]. cbn [allDigits numeral]. intros [Hc _]%andb_prop.
  unfold isDigit in Hc.
  destruct (Ascii.eqb_spec c "-") as [->|_]; [done|].
  by destruct (Ascii.eqb_spec c "+") as [->|_].
Qed.

Lemma numeral_FormatInt (n : Z) : numeral (strconv.FormatInt n) = Some n.
Proof.
  unfold strconv.FormatInt. destruct n as [|p|p]; [reflexivity| |].
  - cbn [Z.to_int NilZero.string_of_int]. unfold NilZero.string_of_uint.
    pose proof (unsignedNumeral_to_uint p) as H.
    pose proof (DecimalPos.Unsigned.to_uint_nonnil p) as Hnil.
    destruct (Pos.to_uint p) eqn:E; [done|..];
      rewrite <- E in *; rewrite numeral_unsigned; auto using string_of_uint_digits.
  - cbn [Z.to_int NilZero.string_of_int]. unfold NilZero.string_of_uint.
    pose proof (unsignedNumeral_to_uint p) as H.
    pose proof (DecimalPos.Unsigned.to_uint_nonnil p) as Hnil.
    destruct (Pos.to_uint p) eqn:E; [done|..]; rewrite <- E in *;
      cbn [numeral]; change (Ascii.eqb "-" "-") with true; cbv iota;
      by rewrite H.
Qed.

Lemma Atoi_FormatInt (n : Z) : inInt n -> strconv.Atoi (strconv.FormatInt n) = Ok n.
Proof. intros H. apply Atoi_spec. split; [apply numeral_FormatInt | done]. Qed.

(** X1: the handler of [/db/freeclass] asks the database for slot [n]
    exactly when the text of [slot] is a decimal numeral (an optional sign,
    then digits only) whose value [n] lies within [int]; for any other text,
    the empty one included, it answers 400.  So the slot the database sees is
    always the number the client wrote, and always within range. *)
Theorem X1_slot_is_a_numeral_within_int (env : Env) (r : http.Request) :
  let get := url.Values_Get (http.Query r) in
  let m := main.freeClassHandler env http.newResponseWriter r in
  (forall n day,
     EvGetFreeClass n day ∈ events m
     <-> numeral (get "slot") = Some n /\ inInt n /\ day = get "day")
  /\ (http.status (value m) = 400
      <-> forall n, numeral (get "slot") = Some n -> ~ inInt n)
  /\ (http.status (value m) = 200
      <-> exists n, numeral (get "slot") = Some n /\ inInt n).
Proof.
  intros get m.
  destruct (strconv.Atoi (get "slot")) as [slot|e] eqn:H.
  - destruct (freeClassHandler_ok env r slot H) as [(Hs & _) He].
    fold m get in Hs, He. apply Atoi_spec in H as [Hn Hr].
    split; [|split].
    + intros n day. rewrite He, list_elem_of_singleton. split.
      * intros [= -> ->]. done.
      * intros (Hn' & _ & ->). congruence.
    + rewrite Hs. split; [done|]. intros Hall. destruct (Hall slot Hn Hr).
    + rewrite Hs. split; [|done]. intros _. by exists slot.
  - destruct (freeClassHandler_err env r e H) as [(Hs & _) He].
    fold m get in Hs, He.
    assert (Hnone : forall n, numeral (get "slot") = Some n -> ~ inInt n).
    { intros n Hn Hr. assert (strconv.Atoi (get "slot") = Ok n) as H'.
      { by apply Atoi_spec. }
      congruence. }
    split; [|split].
    + intros n day. rewrite He, elem_of_nil. split; [done|].
      intros (Hn & Hr & _). by destruct (Hnone n Hn).
    + by rewrite Hs.
    + rewrite Hs. split; [done|]. intros (n & Hn & Hr). by destruct (Hnone n Hn).
Qed.

(** X2: every [int] comes through: when [slot] holds the decimal text of an
    integer [n] within [int], as [strconv.FormatInt] writes it, the database
    is asked for exactly [n] and the answer is a 200. *)
Theorem X2_decimal_slot_round_trip (env : Env) (r : http.Request) (n : Z) :
  inInt n ->
  url.Values_Get (http.Query r) "slot" = strconv.FormatInt n ->
  let m := main.freeClassHandler env http.newResponseWriter r in
  events m = [EvGetFreeClass n (url.Values_Get (http.Query r) "day")]
  /\ http.status (value m) = 200.
Proof.
  intros Hn Hslot m.
  assert (H : strconv.Atoi (url.Values_Get (http.Query r) "slot") = Ok n).
  { rewrite Hslot. by apply Atoi_FormatInt. }
  destruct (freeClassHandler_ok env r n H) as [(Hs & _) He]. done.
Qed.

Lemma X2_witness :
  inInt (- 9223372036854775808)
  /\ events (main.freeClassHandler Sample.env http.newResponseWriter
               (Sample.get "/db/freeclass"
                  [("slot", ["-9223372036854775808"]); ("day", ["Mon"])]))
     = [EvGetFreeClass (- 9223372036854775808) "Mon"].
Proof.
  assert (H : inInt (- 9223372036854775808)) by (unfold inInt; lia).
  split; [exact H|].
  exact (proj1 (X2_decimal_slot_round_trip Sample.env
                  (Sample.get "/db/freeclass"
                     [("slot", ["-9223372036854775808"]); ("day", ["Mon"])])
                  (- 9223372036854775808) H eq_refl)).
Defined.

(** ** Requests to the Graph API, further *)

Lemma requestGraphAPI_events_shape (env : Env) (accessToken endpoint : string) :
  events (main.requestGraphAPI env accessToken endpoint) = []
  \/ exists req, events (main.requestGraphAPI env accessToken endpoint) = [EvDo req].
Proof.
  destruct (NewRequest env "GET" (graphURL endpoint)) as [req|err] eqn:H.
  - right. eexists. by apply requestGraphAPI_events.
  - left. by destruct (requestGraphAPI_no_request env accessToken endpoint err H).
Qed.

(** X3: [requestGraphAPI] hands back a payload exactly when the request could
    be built, the transport delivered an answer, the answer has status 200
    and its body could be read to the end; the payload is then that body.
    Every other course is an error. *)
Theorem X3_requestGraphAPI_succeeds_iff
    (env : Env) (accessToken endpoint body : string) :
  value (main.requestGraphAPI env accessToken endpoint) = Ok body
  <-> exists req resp,
        NewRequest env "GET" ("https://graph.microsoft.com/v1.0/" +:+ endpoint) = Ok req
        /\ Do env (withBearer req accessToken) = Ok resp
        /\ http.StatusCode resp = 200
        /\ http.Body resp = Ok body.
Proof.
  fold (graphURL endpoint).
  destruct (NewRequest env "GET" (graphURL endpoint)) as [req|err] eqn:H.
  - destruct (Do env (withBearer req accessToken)) as [resp|err] eqn:Hdo.
    + destruct (Z.eq_dec (http.StatusCode resp) 200) as [Hc|Hc].
      * rewrite (requestGraphAPI_body env accessToken endpoint req resp H Hdo Hc).
        split.
        -- intros Hb. exists req, resp. done.
        -- intros (req' & resp' & [= <-] & Hdo' & _ & Hb). congruence.
      * rewrite (requestGraphAPI_status env accessToken endpoint req resp H Hdo Hc).
        split; [discriminate|].
        intros (req' & resp' & [= <-] & Hdo' & Hc' & _). congruence.
    + rewrite (requestGraphAPI_transport env accessToken endpoint req err H Hdo).
      split; [discriminate|].
      intros (req' & resp' & [= <-] & Hdo' & _). congruence.
  - destruct (requestGraphAPI_no_request env accessToken endpoint err H) as [-> _].
    split; [discriminate|]. intros (req' & resp' & [=] & _).
Qed.

(** X4: a request that [requestGraphAPI] sends is the one [http.NewRequest]
    built for the method GET and the Graph URL of the endpoint, with the
    header [Authorization] set to [Bearer] and the access token and the
    header [Accept] set to [application/json]; every other header is as
    [NewRequest] left it, and it is the only request of the call. *)
Theorem X4_graph_request_carries_bearer_token
    (env : Env) (accessToken endpoint : string) (sent : http.ClientRequest) :
  EvDo sent ∈ events (main.requestGraphAPI env accessToken endpoint) ->
  exists req,
    NewRequest env "GET" ("https://graph.microsoft.com/v1.0/" +:+ endpoint) = Ok req
    /\ events (main.requestGraphAPI env accessToken endpoint) = [EvDo sent]
    /\ http.reqMethod sent = http.reqMethod req
    /\ http.reqURL sent = http.reqURL req
    /\ http.reqHeader sent !! "Authorization" = Some ["Bearer " +:+ accessToken]
    /\ http.reqHeader sent !! "Accept" = Some ["application/json"]
    /\ forall key : string,
         key <> "Authorization" -> key <> "Accept" ->
         http.reqHeader sent !! key = http.reqHeader req !! key.
Proof.
  fold (graphURL endpoint). intros Hin.
  destruct (NewRequest env "GET" (graphURL endpoint)) as [req|err] eqn:H.
  - rewrite (requestGraphAPI_events env accessToken endpoint req H) in Hin |- *.
    apply list_elem_of_singleton in Hin as [= ->].
    exists req. repeat split.
    + unfold withBearer, http.Request_Header_Set. simpl.
      rewrite lookup_insert_ne by done. apply lookup_insert_eq.
    + unfold withBearer, http.Request_Header_Set. simpl. apply lookup_insert_eq.
    + intros key H1 H2. unfold withBearer, http.Request_Header_Set. simpl.
      by rewrite !lookup_insert_ne.
  - destruct (requestGraphAPI_no_request env accessToken endpoint err H) as [_ He].
    rewrite He in Hin. by apply elem_of_nil in Hin.
Qed.

Lemma X4_witness :
  exists req,
    NewRequest Sample.env "GET" "https://graph.microsoft.com/v1.0/me" = Ok req
    /\ events (main.requestGraphAPI Sample.env "token-1" "me")
       = [EvDo (withBearer req "token-1")].
Proof.
  assert (Hin : EvDo (withBearer
                        {| http.reqMethod := "GET";
                           http.reqURL := "https://graph.microsoft.com/v1.0/me";
                           http.reqHeader := ∅ |} "token-1")
                ∈ events (main.requestGraphAPI Sample.env "token-1" "me")).
  { apply list_elem_of_singleton. reflexivity. }
  destruct (X4_graph_request_carries_bearer_token Sample.env "token-1" "me" _ Hin)
    as (req & Hreq & He & _).
  exists req. split; [exact Hreq|].
  injection Hreq as <-. exact He.
Defined.

(** ** The exchange handler, further *)

Section ExchangeFurther.

Variables (env : Env) (c : oauth2.Config) (r : http.Request).

Let code := url.Values_Get (http.Query r) "code".
Let m := main.oauthExchangeHandler env c http.newResponseWriter r.
Let graph (token : oauth2.Token) (endpoint : string) :=
  main.requestGraphAPI env (oauth2.AccessToken token) endpoint.

(** X5: the status of the answer tells how far the exchange got.  It is 400
    exactly when the provider refused the code, 200 exactly when the code was
    exchanged and both Graph requests returned a payload, and 403 exactly
    when the code was exchanged and the profile request or, after a profile
    was returned, the organization request failed. *)
Theorem X5_exchange_status_table :
  (http.status (value m) = 400
   <-> exists err, Exchange env c (http.Context r) code = Err err)
  /\ (http.status (value m) = 200
      <-> exists token profile organization,
            Exchange env c (http.Context r) code = Ok token
            /\ value (graph token "me") = Ok profile
            /\ value (graph token "organization") = Ok organization)
  /\ (http.status (value m) = 403
      <-> exists token err,
            Exchange env c (http.Context r) code = Ok token
            /\ (value (graph token "me") = Err err
                \/ (exists profile, value (graph token "me") = Ok profile)
                   /\ value (graph token "organization") = Err err)).
Proof.
  destruct (Exchange env c (http.Context r) code) as [token|err] eqn:H.
  - destruct (value (graph token "me")) as [profile|err] eqn:Hme.
    + destruct (value (graph token "organization")) as [org|err] eqn:Horg.
      * destruct (exchange_succeeded env c r token profile org H Hme Horg)
          as [(Hs & _) _]. fold m in Hs. rewrite Hs.
        split; [|split].
        -- split; [done | intros [? [=]]].
        -- split; [|done]. intros _. exists token, profile, org. done.
        -- split; [done|].
           intros (t & e & [= <-] & [He | [_ He]]); congruence.
      * destruct (organization_failed env c r token profile err H Hme Horg)
          as [(Hs & _) _]. fold m in Hs. rewrite Hs.
        split; [|split].
        -- split; [done | intros [? [=]]].
        -- split; [done|]. intros (t & p & o & [= <-] & _ & Ho). congruence.
        -- split; [|done]. intros _. exists token, err. split; [done|].
           right. split; [by exists profile | done].
    + destruct (profile_failed env c r token err H Hme) as [(Hs & _) _].
      fold m in Hs. rewrite Hs.
      split; [|split].
      * split; [done | intros [? [=]]].
      * split; [done|]. intros (t & p & o & [= <-] & Hp & _). congruence.
      * split; [|done]. intros _. exists token, err. split; [done|]. by left.
  - destruct (exchange_failed env c r err H) as [(Hs & _) _].
    fold m in Hs. rewrite Hs.
    split; [|split].
    + split; [|done]. intros _. by exists err.
    + split; [done|]. intros (t & p & o & [=] & _).
    + split; [done|]. intros (t & e & [=] & _).
Qed.

(** X6: what one run of the exchange handler does to the outside.  It
    starts with exactly one token exchange, for the code and the context of
    the request; after it come at most two Graph requests and, exactly when
    the answer is not a 200, one log line, which is the last event and ends
    with the body of the answer.  The database is never asked. *)
Theorem X6_exchange_trace_discipline :
  exists rest,
    events m = EvExchange (http.Context r) code :: rest
    /\ Forall (fun e => isDo e || isLog e = true) rest
    /\ (count isDo (events m) <= 2)%nat
    /\ count isDB (events m) = 0%nat
    /\ count isLog (events m)
       = (if http.status (value m) =? 200 then 0%nat else 1%nat)
    /\ (http.status (value m) <> 200 ->
        exists what,
          List.last (events m) (EvExit 0)
          = EvLog (what +:+ " " +:+ http.body (value m) +:+ newline)).
Proof.
  destruct (Exchange env c (http.Context r) code) as [token|err] eqn:H.
  - destruct (requestGraphAPI_events_shape env (oauth2.AccessToken token) "me")
      as [E1 | [req1 E1]];
    destruct (value (graph token "me")) as [profile|err] eqn:Hme.
    1,3: destruct (requestGraphAPI_events_shape env (oauth2.AccessToken token)
                     "organization") as [E2 | [req2 E2]];
         destruct (value (graph token "organization")) as [org|err] eqn:Horg.
    all: first
      [ destruct (exchange_succeeded env c r token profile org H Hme Horg)
          as [(Hs & _ & Hb) He]
      | destruct (organization_failed env c r token profile err H Hme Horg)
          as [(Hs & _ & Hb) He]
      | destruct (profile_failed env c r token err H Hme) as [(Hs & _ & Hb) He] ];
      fold m code in Hs, Hb, He; rewrite He, Hs, Hb; subst graph; cbv beta;
      rewrite ?E1, ?E2; cbn [app]; eexists; (split; [reflexivity|]).
    all: split; [solve [repeat constructor]|].
    all: split; [solve [cbn; lia]|].
    all: split; [reflexivity|].
    all: split; [reflexivity|].
    all: first [ solve [intros Hne; by destruct Hne]
               | solve [intros _; exists "Error getting user profile"; reflexivity]
               | solve [intros _; exists "Error getting user organization";
                        reflexivity] ].
  - destruct (exchange_failed env c r err H) as [(Hs & _ & Hb) He].
    fold m code in Hs, Hb, He. rewrite He, Hs, Hb.
    eexists. split; [reflexivity|]. split; [repeat constructor|].
    split; [cbn; lia|]. split; [reflexivity|]. split; [reflexivity|].
    intros _. exists "Error while exchanging authorization code". reflexivity.
Qed.

End ExchangeFurther.

(** ** All handlers *)

(** X7: every handler fixes the status of its answer, and whenever it sends
    a body it has set a [Content-Type] of its own before: no answer of the
    server is left to the content sniffing of [net/http]. *)
Theorem X7_body_never_without_content_type
    (env : Env) (c : oauth2.Config) (r : http.Request) :
  Forall
    (fun h : main.HandlerFunc =>
       let w := value (h http.newResponseWriter r) in
       http.wroteHeader w = true
       /\ (http.body w <> EmptyString -> is_Some (http.sent w !! "Content-Type")))
    [main.oauthLoginHandler env c; main.oauthExchangeHandler env c;
     main.freeClassHandler env; main.freeSlotHandler env;
     main.dayTimetableHandler env].
Proof.
  rewrite !Forall_cons.
  split; [|split; [|split; [|split; [|split; [|by apply Forall_nil]]]]]; cbv zeta.
  - unfold main.oauthLoginHandler, http.Redirect. rewrite value_ret.
    change (bool_decide (is_Some (http.header http.newResponseWriter !! "Content-Type")))
      with false.
    destruct (String.eqb (http.Method r) "GET"),
             (String.eqb (http.Method r) "HEAD");
      (split; [reflexivity|]); intros Hb; first [by destruct Hb | by eexists].
  - unfold main.oauthExchangeHandler, main.oauthConfig_Exchange. io_norm.
    destruct (Exchange env c _ _) as [token|err]; io_norm.
    + destruct (value (main.requestGraphAPI env (oauth2.AccessToken token) "me"));
        io_norm.
      * destruct (value (main.requestGraphAPI env (oauth2.AccessToken token)
                           "organization")); io_norm;
          (split; [reflexivity | intros _; by eexists]).
      * split; [reflexivity | intros _; by eexists].
    + split; [reflexivity | intros _; by eexists].
  - unfold main.freeClassHandler.
    destruct (strconv.Atoi _); split; try reflexivity; intros _; by eexists.
  - split; [reflexivity | intros _; by eexists].
  - split; [reflexivity | intros _; by eexists].
Qed.

(** ** The login handler, further *)

(** X8: the [Location] of the login redirect, in full.  With the
    configuration read from [config.json], it is the authorization endpoint
    of the tenant ([common] when the tenant is empty), followed by the query
    parameters in the order of their names: [access_type=online], the client
    id, [prompt=select_account], the redirect URL when there is one,
    [response_type=code], the scopes joined by spaces when there are any, and
    the state; every value is query-escaped. *)
Theorem X8_login_location
    (env0 env : Env) (file : string) (jsonData : oauthJSONRepr) (r : http.Request) :
  ReadFile env0 main.configFile = Ok file ->
  Unmarshal env0 file = Ok jsonData ->
  let tenant := if String.eqb (Tenant jsonData) "" then "common" else Tenant jsonData in
  let authURL :=
    "https://login.microsoftonline.com/" +:+ tenant +:+ "/oauth2/v2.0/authorize" in
  exists c,
    main.oauthConfig (value (main.init env0 main.start)) = Some c
    /\ http.sentHeader
         (value (main.oauthLoginHandler env c http.newResponseWriter r)) "Location"
       = http.hexEscapeNonASCII authURL
         +:+ (if Contains authURL "?" then "&" else "?")
         +:+ "access_type=online&client_id=" +:+ url.QueryEscape (ClientID jsonData)
         +:+ "&prompt=select_account"
         +:+ (if String.eqb (RedirectURL jsonData) "" then EmptyString
              else "&redirect_uri=" +:+ url.QueryEscape (RedirectURL jsonData))
         +:+ "&response_type=code"
         +:+ (if 0 <? oauth2.len (Scopes jsonData)
              then "&scope="
                   +:+ url.QueryEscape (Join (oauth2.elems (Scopes jsonData)) " ")
              else EmptyString)
         +:+ "&state=" +:+ main.generateRandomString env 16.
Proof.
  intros Hread Hparse tenant authURL.
  eexists. split.
  { unfold main.init. rewrite Hread, Hparse. reflexivity. }
  unfold main.oauthLoginHandler. rewrite value_ret.
  rewrite (proj2 (Redirect_found r _)).
  pose proof (generateRandomString_alnum env 16) as Halnum.
  pose proof (generateRandomString_length env 16) as Hlen.
  destruct (main.generateRandomString env 16) as [|a s] eqn:E; [discriminate Hlen|].
  rewrite AuthCodeURL_login. cbn [oauth2.ClientID oauth2.RedirectURL oauth2.Scopes
                                   oauth2.Endpoint_ oauth2.AuthURL oauth2.AzureADEndpoint].
  fold tenant. fold authURL.
  rewrite (QueryEscape_alnum _ Halnum).
  rewrite !hexEscapeNonASCII_app, (hexEscapeNonASCII_alnum _ Halnum).
  rewrite QueryEscape_ascii.
  destruct (Contains authURL "?"), (String.eqb (RedirectURL jsonData) ""),
           (0 <? oauth2.len (Scopes jsonData));
    rewrite ?hexEscapeNonASCII_app, ?QueryEscape_ascii; reflexivity.
Qed.

Lemma X8_witness :
  exists c,
    main.oauthConfig (value (main.init Sample.env main.start)) = Some c
    /\ http.sentHeader
         (value (main.oauthLoginHandler Sample.env c http.newResponseWriter
                   (Sample.get "/oauth/login" []))) "Location"
       = "https://login.microsoftonline.com/contoso/oauth2/v2.0/authorize"
         +:+ "?access_type=online&client_id=client-1&prompt=select_account"
         +:+ "&redirect_uri=http%3A%2F%2Flocalhost%3A42069%2Foauth%2Fexchange"
         +:+ "&response_type=code&scope=User.Read&state=sbUDm5OxgZIraTCl".
Proof.
  destruct (X8_login_location Sample.env Sample.env "{}" Sample.config
              (Sample.get "/oauth/login" []) eq_refl eq_refl) as (c & Hc & Hloc).
  exists c. split; [exact Hc|].
  rewrite Hloc. reflexivity.
Defined.

(** X9: the login redirect does not depend on the client secret, nor on the
    token endpoint, nor on anything of the request but its method: two
    configurations stored by [init] that agree on client id, redirect URL,
    scopes and authorization endpoint give the same answer to any two
    requests with the same method.  The secret never reaches the browser. *)
Theorem X9_login_ignores_secret_and_query
    (env1 env2 env : Env) (c1 c2 : oauth2.Config) (w : http.ResponseWriter)
    (r1 r2 : http.Request) :
  main.oauthConfig (value (main.init env1 main.start)) = Some c1 ->
  main.oauthConfig (value (main.init env2 main.start)) = Some c2 ->
  oauth2.ClientID c1 = oauth2.ClientID c2 ->
  oauth2.RedirectURL c1 = oauth2.RedirectURL c2 ->
  oauth2.Scopes c1 = oauth2.Scopes c2 ->
  oauth2.AuthURL (oauth2.Endpoint_ c1) = oauth2.AuthURL (oauth2.Endpoint_ c2) ->
  http.Method r1 = http.Method r2 ->
  main.oauthLoginHandler env c1 w r1 = main.oauthLoginHandler env c2 w r2.
Proof.
  intros _ _ Hid Hredirect Hscopes Hauth Hmethod.
  unfold main.oauthLoginHandler, oauth2.AuthCodeURL, http.Redirect.
  by rewrite Hid, Hredirect, Hscopes, Hauth, Hmethod.
Qed.

Lemma X9_witness :
  (exists c2,
     main.oauthConfig (value (main.init secretChanged main.start)) = Some c2
     /\ oauth2.ClientSecret c2 <> oauth2.ClientSecret Sample.oauthConfig
     /\ main.oauthLoginHandler Sample.env Sample.oauthConfig http.newResponseWriter
          (Sample.get "/oauth/login" [])
        = main.oauthLoginHandler Sample.env c2 http.newResponseWriter
            (Sample.get "/oauth/login" [("secret", ["?"])])).
Proof.
  eexists. split; [reflexivity|]. split; [discriminate|].
  exact (X9_login_ignores_secret_and_query Sample.env secretChanged Sample.env
           Sample.oauthConfig _ http.newResponseWriter _ _
           eq_refl eq_refl eq_refl eq_refl eq_refl eq_refl eq_refl).
Defined.

(** X10: [generateRandomString] returns, for every length asked, a string
    of exactly that length whose characters all come from the charset of
    letters and digits, the empty string for length 0; in one world, the
    string of a shorter length is the beginning of the string of a longer
    one. *)
Theorem X10_generateRandomString_length_and_alphabet (env : Env) (n k : nat) :
  String.length (main.generateRandomString env n) = n
  /\ Forall (fun ch => ch ∈ bytes_of_string main.charset)
       (bytes_of_string (main.generateRandomString env n))
  /\ main.generateRandomString env 0 = EmptyString
  /\ exists rest,
       main.generateRandomString env (n + k)
       = main.generateRandomString env n +:+ rest.
Proof.
  split; [apply generateRandomString_length|]. split; [|split; [done|]].
  - rewrite generateRandomString_draws, bytes_of_string_of_bytes.
    apply Forall_map, Forall_forall. intros i _. cbv beta.
    unfold main.charsetAt. apply list_elem_of_In, nth_In.
    rewrite charset_length.
    pose proof (Z.mod_pos_bound (Int31 env (UnixNano env) i) 62). lia.
  - rewrite !generateRandomString_draws, seq_app, map_app.
    eexists. generalize (map (fun i => main.charsetAt (Int31 env (UnixNano env) i `mod` 62))
                          (seq 0 n)) as l.
    intros l. induction l as [|ch l IH]; [reflexivity|].
    cbn [app string_of_bytes]. by rewrite IH.
Qed.

(** ** Start and service, further *)

Lemma run_listening_iff (env : Env) :
  main.listening (value (main.run env)) = true
  <-> exists file jsonData,
        ReadFile env main.configFile = Ok file
        /\ Unmarshal env file = Ok jsonData
        /\ ListenAndServe env main.port = None
        /\ main.exited (value (main.run env)) = false
        /\ is_Some (main.oauthConfig (value (main.run env)))
        /\ events (main.run env)
           = [EvLog ("Server starting on port  :42069" +:+ newline);
              EvListen ":42069"].
Proof.
  unfold main.run, main.init.
  destruct (ReadFile env main.configFile) as [file|err] eqn:Hread.
  - destruct (Unmarshal env file) as [jsonData|err] eqn:Hparse.
    + io_norm. cbn [main.exited main.start]. unfold main.main. io_norm.
      destruct (ListenAndServe env main.port) as [err|] eqn:Hl.
      * split; [discriminate|]. intros (f & j & _ & _ & [=] & _).
      * split; [|done]. intros _. exists file, jsonData.
        repeat split; try done.
    + split; [discriminate|]. intros (f & j & [= <-] & Hp & _). congruence.
  - split; [discriminate|]. intros (f & j & [=] & _).
Qed.

(** X11: the process gets to serve exactly when the configuration file
    could be read, [json.Unmarshal] accepted it and the port could be bound.
    A process that serves has not exited, has its configuration in place (no
    handler ever finds [oauthConfig] nil), and has logged one line and then
    opened port 42069. *)
Theorem X11_listening_iff_start_succeeded (env : Env) :
  (main.listening (value (main.run env)) = true
   <-> exists file jsonData,
         ReadFile env main.configFile = Ok file
         /\ Unmarshal env file = Ok jsonData
         /\ ListenAndServe env main.port = None)
  /\ (main.listening (value (main.run env)) = true ->
      main.exited (value (main.run env)) = false
      /\ is_Some (main.oauthConfig (value (main.run env)))
      /\ events (main.run env)
         = [EvLog ("Server starting on port  :42069" +:+ newline);
            EvListen ":42069"]).
Proof.
  split; [split|].
  - intros Hl.
    destruct (proj1 (run_listening_iff env) Hl) as (file & j & H1 & H2 & H3 & _).
    by exists file, j.
  - intros (file & j & Hread & Hparse & Hlisten).
    unfold main.run, main.init. rewrite Hread, Hparse. io_norm.
    cbn [main.exited main.start]. unfold main.main. io_norm.
    by rewrite Hlisten.
  - intros Hl.
    destruct (proj1 (run_listening_iff env) Hl) as (_ & _ & _ & _ & _ & H4 & H5 & H6).
    done.
Qed.

(** X12: a port that cannot be bound is fatal too.  When the configuration
    was loaded and [ListenAndServe] returns an error, the process logs the
    start line, tries the port, logs the error and exits with status 1; it
    answers no request. *)
Theorem X12_listen_failure_is_fatal
    (env : Env) (file : string) (jsonData : oauthJSONRepr) (err : error) :
  ReadFile env main.configFile = Ok file ->
  Unmarshal env file = Ok jsonData ->
  ListenAndServe env main.port = Some err ->
  events (main.run env)
  = [EvLog ("Server starting on port  :42069" +:+ newline); EvListen ":42069";
     EvLog err; EvExit 1]
  /\ main.exited (value (main.run env)) = true
  /\ main.listening (value (main.run env)) = false
  /\ forall reqs,
       (value (main.serve (value (main.run env)) reqs)).2 = map (fun _ => None) reqs
       /\ events (main.serve (value (main.run env)) reqs) = [].
Proof.
  intros Hread Hparse Hlisten.
  assert (Hrun : main.run env
                 = ({| main.oauthConfig := main.oauthConfig (value (main.init env main.start));
                       main.exited := true; main.listening := false |},
                    [EvLog ("Server starting on port  :42069" +:+ newline);
                     EvListen ":42069"; EvLog err; EvExit 1])).
  { unfold main.run, main.init. rewrite Hread, Hparse.
    unfold main.main. by rewrite Hlisten. }
  rewrite Hrun. repeat split; try by apply serve_not_listening.
Qed.

Lemma X12_witness :
  events (main.run portTaken)
  = [EvLog ("Server starting on port  :42069" +:+ newline); EvListen ":42069";
     EvLog "listen tcp :42069: bind: address already in use"; EvExit 1].
Proof.
  exact (proj1 (X12_listen_failure_is_fatal portTaken "{}" Sample.config
                  "listen tcp :42069: bind: address already in use"
                  eq_refl eq_refl eq_refl)).
Defined.

(** X13: once the process listens, a request whose path is one of the five
    registered patterns is answered by the handler registered for it, run
    with the stored configuration on a fresh response writer; the process
    does what the handler does and nothing else, and stays as it was. *)
Theorem X13_registered_paths_reach_their_handlers
    (env0 env : Env) (r : http.Request) :
  main.listening (value (main.run env0)) = true ->
  exists c,
    main.oauthConfig (value (main.run env0)) = Some c
    /\ forall (path : string) (h : main.HandlerFunc),
         (path, h) ∈ [("/oauth/login", main.oauthLoginHandler env c);
                      ("/oauth/exchange", main.oauthExchangeHandler env c);
                      ("/db/freeclass", main.freeClassHandler env);
                      ("/db/freeslot", main.freeSlotHandler env);
                      ("/db/daytimetable", main.dayTimetableHandler env)] ->
         http.Path r = path ->
         value (main.serve1 (value (main.run env0)) env r)
         = (value (main.run env0), Some (value (h http.newResponseWriter r)))
         /\ events (main.serve1 (value (main.run env0)) env r)
            = events (h http.newResponseWriter r).
Proof.
  intros Hl.
  destruct (proj1 (run_listening_iff env0) Hl)
    as (_ & _ & _ & _ & _ & Hex & [c Hc] & _).
  exists c. split; [done|].
  intros path h Hin Hpath. unfold main.serve1. rewrite Hex, Hl, Hc. cbn [orb negb].
  assert (Hroute : main.ServeHTTP (main.router env c) http.newResponseWriter r
                   = h http.newResponseWriter r).
  { unfold main.ServeHTTP. rewrite Hpath.
    rewrite !elem_of_cons, elem_of_nil in Hin.
    destruct Hin as [[= -> ->]|[[= -> ->]|[[= -> ->]|[[= -> ->]|[[= -> ->]|[]]]]]];
      reflexivity. }
  rewrite Hroute. io_norm. cbn [fst snd]. by rewrite app_nil_r.
Qed.

Lemma X13_witness :
  main.listening (value (main.run Sample.env)) = true
  /\ value (main.serve1 (value (main.run Sample.env)) Sample.env Sample.freeslot_10A_Tue)
     = (value (main.run Sample.env),
        Some (value (main.freeSlotHandler Sample.env http.newResponseWriter
                       Sample.freeslot_10A_Tue))).
Proof.
  split; [reflexivity|].
  destruct (X13_registered_paths_reach_their_handlers Sample.env Sample.env
              Sample.freeslot_10A_Tue eq_refl) as (c & Hc & Hroutes).
  refine (proj1 (Hroutes "/db/freeslot" (main.freeSlotHandler Sample.env) _ eq_refl)).
  rewrite !elem_of_cons. right; right; right; left. reflexivity.
Defined.

(** ** The bodies of the database handlers *)

Lemma appendStringLoop_plain (s : string) :
  forallb plainByte (bytes_of_string s) = true ->
  json.appendStringLoop s json.Fresh = s.
Proof.
  induction s as [|ch s IH]; [done|].
  cbn [bytes_of_string forallb json.appendStringLoop].
  intros [Hc Hs]%andb_prop. unfold plainByte in Hc.
  assert ((byte_val ch <? utf8.RuneSelf) = true) as ->.
  { unfold json.htmlSafe, utf8.RuneSelf in *. lia. }
  by rewrite Hc, IH.
Qed.

(** X14: names made of printable ASCII other than the double quote, the
    backslash and the characters [<], [>] and [&] are written as they are:
    for a non-nil slice of such names the body of [/db/freeclass] and of
    [/db/daytimetable] is the names between double quotes, separated by
    commas, between brackets. *)
Theorem X14_plain_names_are_written_verbatim
    (env : Env) (r : http.Request) (names : list string) :
  Forall (fun s => forallb plainByte (bytes_of_string s) = true) names ->
  let get := url.Values_Get (http.Query r) in
  (forall slot,
     strconv.Atoi (get "slot") = Ok slot ->
     GetFreeClass env slot (get "day") = Some names ->
     http.body (value (main.freeClassHandler env http.newResponseWriter r))
     = jsonArray (map quoted names))
  /\ (GetTimetableByDay env (get "class") (get "day") = Some names ->
      http.body (value (main.dayTimetableHandler env http.newResponseWriter r))
      = jsonArray (map quoted names)).
Proof.
  intros Hplain get.
  assert (Hmap : map json.appendString names = map quoted names).
  { induction Hplain as [|s l Hs _ IH]; [done|]. cbn [map]. rewrite IH. f_equal.
    unfold json.appendString, quoted. by rewrite appendStringLoop_plain. }
  split.
  - intros slot H Hdb.
    destruct (freeClassHandler_ok env r slot H) as [(_ & _ & Hb) _].
    rewrite Hb. fold get. rewrite Hdb. unfold json.encodeSlice, jsonArray.
    by rewrite Hmap.
  - intros Hdb.
    destruct (dayTimetableHandler_ok env r) as [(_ & _ & Hb) _].
    rewrite Hb. fold get. rewrite Hdb. unfold json.encodeSlice, jsonArray.
    by rewrite Hmap.
Qed.

Lemma X14_witness :
  http.body (value (main.dayTimetableHandler Sample.env http.newResponseWriter
                      Sample.freeslot_10A_Tue))
  = jsonArray [quoted "Maths"; quoted "Physics"].
Proof.
  assert (H : Forall (fun s => forallb plainByte (bytes_of_string s) = true)
                ["Maths"; "Physics"]).
  { repeat constructor. }
  exact (proj2 (X14_plain_names_are_written_verbatim Sample.env
                  Sample.freeslot_10A_Tue ["Maths"; "Physics"] H) eq_refl).
Defined.

Lemma FormatInt_numBytes (n : Z) :
  forallb numByte (bytes_of_string (strconv.FormatInt n)) = true.
Proof.
  assert (Hu : forall d, forallb numByte (bytes_of_string (NilEmpty.string_of_uint d)) = true).
  { intros d. induction d; simpl; try done. }
  unfold strconv.FormatInt. destruct n as [|p|p]; [done|..];
    cbn [Z.to_int NilZero.string_of_int]; unfold NilZero.string_of_uint;
    destruct (Pos.to_uint p) eqn:E; try done; rewrite <- E;
    cbn [bytes_of_string forallb]; by rewrite ?Hu.
Qed.

Lemma FormatInt_nonempty (n : Z) : strconv.FormatInt n <> EmptyString.
Proof.
  intros H. pose proof (numeral_FormatInt n) as Hn. by rewrite H in Hn.
Qed.

Lemma FormatInt_inj (a b : Z) : strconv.FormatInt a = strconv.FormatInt b -> a = b.
Proof.
  intros H. pose proof (numeral_FormatInt a) as Ha. rewrite H, numeral_FormatInt in Ha.
  by injection Ha.
Qed.

Lemma numeral_split (s1 s2 t1 t2 : string) (c1 c2 : ascii) :
  forallb numByte (bytes_of_string s1) = true ->
  forallb numByte (bytes_of_string s2) = true ->
  numByte c1 = false -> numByte c2 = false ->
  s1 +:+ String c1 t1 = s2 +:+ String c2 t2 ->
  s1 = s2 /\ String c1 t1 = String c2 t2.
Proof.
  revert s2. induction s1 as [|x s1 IH]; intros [|y s2] H1 H2 Hc1 Hc2.
  - done.
  - cbn [bytes_of_string forallb] in H2. apply andb_prop in H2 as [Hy _].
    intros [= -> _]. congruence.
  - cbn [bytes_of_string forallb] in H1. apply andb_prop in H1 as [Hx _].
    intros [= -> _]. congruence.
  - cbn [bytes_of_string forallb] in H1, H2.
    apply andb_prop in H1 as [_ H1]. apply andb_prop in H2 as [_ H2].
    intros [= -> Heq]. destruct (IH s2 H1 H2 Hc1 Hc2 Heq) as [-> ?]. done.
Qed.

Lemma Join_ints_inj (l1 l2 : list Z) :
  Join (map strconv.FormatInt l1) "," +:+ "]"
  = Join (map strconv.FormatInt l2) "," +:+ "]" ->
  l1 = l2.
Proof.
  assert (Hcons : forall x r,
            Join (map strconv.FormatInt (x :: r)) "," +:+ "]"
            = strconv.FormatInt x
              +:+ match r with
                  | [] => "]"
                  | _ => String "," (Join (map strconv.FormatInt r) "," +:+ "]")
                  end).
  { intros x [|y r]; [reflexivity|].
    cbn [map Join]. by rewrite !append_assoc. }
  assert (Hhead : forall x t, "]" <> strconv.FormatInt x +:+ t).
  { intros x t H. pose proof (FormatInt_numBytes x) as Hb.
    pose proof (FormatInt_nonempty x) as Hne.
    destruct (strconv.FormatInt x) as [|ch s]; [done|].
    cbn [bytes_of_string forallb] in Hb. apply andb_prop in Hb as [Hch _].
    injection H as <- _. done. }
  revert l2. induction l1 as [|x r1 IH]; intros [|y r2].
  - done.
  - rewrite Hcons. intros H. by apply Hhead in H.
  - rewrite Hcons. intros H. symmetry in H. by apply Hhead in H.
  - rewrite !Hcons. intros H.
    assert (Hsplit : strconv.FormatInt x = strconv.FormatInt y
                     /\ match r1 with
                        | [] => "]"
                        | _ => String "," (Join (map strconv.FormatInt r1) "," +:+ "]")
                        end
                        = match r2 with
                          | [] => "]"
                          | _ => String "," (Join (map strconv.FormatInt r2) "," +:+ "]")
                          end).
    { destruct r1, r2;
        (eapply numeral_split; [apply FormatInt_numBytes | apply FormatInt_numBytes
                               | | | exact H]); reflexivity. }
    destruct Hsplit as [Hx%FormatInt_inj Hr]. subst y. f_equal.
    destruct r1 as [|a r1], r2 as [|b r2]; try done.
    injection Hr as Hr. by apply IH.
Qed.

(** X15: the body of [/db/freeslot] determines what the database returned:
    two slices of integers with the same JSON text are the same slice, nil
    and the empty slice being told apart as [null] and [[]].  A client can
    always recover the list of free slots from the body. *)
Theorem X15_freeslot_body_determines_slots
    (env1 env2 : Env) (r1 r2 : http.Request) :
  let slots (env : Env) (r : http.Request) :=
    GetFreeSlot env (url.Values_Get (http.Query r) "class")
      (url.Values_Get (http.Query r) "day") in
  http.body (value (main.freeSlotHandler env1 http.newResponseWriter r1))
  = http.body (value (main.freeSlotHandler env2 http.newResponseWriter r2))
  <-> slots env1 r1 = slots env2 r2.
Proof.
  intros slots.
  destruct (freeSlotHandler_ok env1 r1) as [(_ & _ & ->) _].
  destruct (freeSlotHandler_ok env2 r2) as [(_ & _ & ->) _].
  fold (slots env1 r1) (slots env2 r2).
  split; [|by intros ->].
  destruct (slots env1 r1) as [l1|], (slots env2 r2) as [l2|];
    unfold json.encodeSlice; try done.
  intros [= H]. f_equal. by apply Join_ints_inj.
Qed.

(** ** The query of the login redirect *)

(** X16: nothing in the configuration can add a parameter to the login
    redirect or take one away.  With the configuration read from
    [config.json] and an authorization URL that holds neither [?] nor [#],
    the query of the [Location] consists of [access_type], [client_id],
    [prompt], [redirect_uri] when a redirect URL is configured,
    [response_type], [scope] when there are scopes, and [state], in this
    order and each once, whatever bytes the client id, the redirect URL and
    the scopes contain; the value of [state] is the state that was
    generated and the value of [client_id] the escaped client id. *)
Theorem X16_login_query_has_fixed_parameters
    (env0 env : Env) (c : oauth2.Config) (r : http.Request) :
  main.oauthConfig (value (main.init env0 main.start)) = Some c ->
  countByte "?" (oauth2.AuthURL (oauth2.Endpoint_ c)) = 0%nat ->
  countByte "#" (oauth2.AuthURL (oauth2.Endpoint_ c)) = 0%nat ->
  let location :=
    http.sentHeader (value (main.oauthLoginHandler env c http.newResponseWriter r))
      "Location" in
  let state := main.generateRandomString env 16 in
  queryParams location = loginParams c state
  /\ map fst (queryParams location)
     = ["access_type"; "client_id"; "prompt"]
       ++ (if String.eqb (oauth2.RedirectURL c) "" then [] else ["redirect_uri"])
       ++ ["response_type"]
       ++ (if 0 <? oauth2.len (oauth2.Scopes c) then ["scope"] else [])
       ++ ["state"]
  /\ queryValues location "state" = [state]
  /\ queryValues location "client_id" = [url.QueryEscape (oauth2.ClientID c)].
Proof.
  intros _ Hquery Hfrag location state.
  destruct (login_queryParams env c r Hfrag) as (front & Hq & Hfront).
  rewrite (Hfront Hquery) in Hq. cbn [app] in Hq.
  fold location state in Hq. unfold queryValues. rewrite Hq.
  unfold loginParams.
  destruct (String.eqb (oauth2.RedirectURL c) ""),
           (0 <? oauth2.len (oauth2.Scopes c)); done.
Qed.

Lemma X16_witness :
  main.oauthConfig (value (main.init Sample.env main.start)) = Some Sample.oauthConfig
  /\ queryParams
       (http.sentHeader
          (value (main.oauthLoginHandler Sample.env Sample.oauthConfig
                    http.newResponseWriter (Sample.get "/oauth/login" [])))
          "Location")
     = loginParams Sample.oauthConfig (main.generateRandomString Sample.env 16).
Proof.
  split; [reflexivity|].
  exact (proj1 (X16_login_query_has_fixed_parameters Sample.env Sample.env
                  Sample.oauthConfig (Sample.get "/oauth/login" [])
                  eq_refl eq_refl eq_refl)).
Defined.

(** ** The JSON text of names *)

Lemma acceptRanges_lo (i : Z) : 128 <= (utf8.acceptRanges i).1.
Proof. unfold utf8.acceptRanges. repeat case_match; simpl; lia. Qed.

Lemma DecodeRuneInString_continuation (s0 : Z) (t : list Z) :
  Forall (fun b => 128 <= b)
    (take (Z.to_nat ((utf8.DecodeRuneInString (s0 :: t)).2 - 1)) t).
Proof.
  unfold utf8.DecodeRuneInString.
  destruct (240 <=? utf8.first s0); [by simpl; apply List.Forall_nil|].
  pose proof (acceptRanges_lo (Z.shiftr (utf8.first s0) 4)) as Hlo.
  destruct (utf8.acceptRanges (Z.shiftr (utf8.first s0) 4)) as [lo hi].
  cbn [fst] in Hlo.
  destruct (Z.of_nat (length (s0 :: t)) <? Z.land (utf8.first s0) 7);
    [by simpl; apply List.Forall_nil|].
  destruct t as [|s1 t1]; [by simpl; apply List.Forall_nil|].
  destruct ((s1 <? lo) || (hi <? s1)) eqn:H1; [by simpl; apply List.Forall_nil|].
  assert (128 <= s1) by lia.
  destruct (Z.land (utf8.first s0) 7 <=? 2); [by simpl; repeat constructor|].
  destruct t1 as [|s2 t2]; [by simpl; apply List.Forall_nil|].
  unfold utf8.continuation.
  destruct (negb ((128 <=? s2) && (s2 <=? 191))) eqn:H2; [by simpl; apply List.Forall_nil|].
  assert (128 <= s2) by lia.
  destruct (Z.land (utf8.first s0) 7 <=? 3); [by simpl; repeat constructor|].
  destruct t2 as [|s3 t3]; [by simpl; apply List.Forall_nil|].
  destruct (negb ((128 <=? s3) && (s3 <=? 191))) eqn:H3; [by simpl; apply List.Forall_nil|].
  assert (128 <= s3) by lia.
  by simpl; repeat constructor.
Qed.

Lemma DecodeRuneInString_size (l : list Z) : (utf8.DecodeRuneInString l).2 <= 4.
Proof.
  unfold utf8.DecodeRuneInString. destruct l as [|s0 t]; [simpl; lia|].
  destruct (240 <=? utf8.first s0); [simpl; lia|].
  destruct (utf8.acceptRanges (Z.shiftr (utf8.first s0) 4)) as [lo hi].
  repeat first [ progress (simpl; lia) | case_match ].
Qed.

Lemma hex_safe (n : Z) : safeByte (json.hex n) = true.
Proof.
  unfold json.hex. destruct (Z.to_nat n) as [|k]; [done|].
  do 16 (destruct k as [|k]; [done|]). by destruct k.
Qed.

Lemma high_safe (ch : ascii) : 128 <= byte_val ch -> safeByte ch = true.
Proof. unfold safeByte. lia. Qed.

Lemma escapeByte_safe (b : Z) :
  forallb safeByte (bytes_of_string (json.escapeByte b)) = true.
Proof.
  unfold json.escapeByte.
  destruct ((b =? 92) || (b =? 34)) eqn:H.
  - assert (Hb : b = 92 \/ b = 34) by lia. by destruct Hb as [-> | ->].
  - repeat case_match; try done.
    rewrite forallb_bytes_app. cbn [bytes_of_string forallb].
    by rewrite !hex_safe.
Qed.

Lemma appendStringLoop_safe (src : string) (st : json.scan) :
  scanReady st src ->
  forallb safeByte (bytes_of_string (json.appendStringLoop src st)) = true.
Proof.
  revert st. induction src as [|ch r IH]; intros st Hst; [done|].
  assert (Hfresh :
    forallb safeByte
      (bytes_of_string
         (let b := byte_val ch in
          if b <? utf8.RuneSelf then
            (if json.htmlSafe b then String ch EmptyString else json.escapeByte b)
            +:+ json.appendStringLoop r json.Fresh
          else
            let '(rune, size) :=
              utf8.DecodeRuneInString
                (map byte_val (take 4 (bytes_of_string (String ch r)))) in
            if (rune =? utf8.RuneError) && (size =? 1) then
              String backslash "ufffd" +:+ json.appendStringLoop r json.Fresh
            else if (rune =? 8232) || (rune =? 8233) then
              String backslash "u202"
              +:+ String (json.hex (Z.land rune 15))
                    (json.appendStringLoop r (json.Drop (Z.to_nat (size - 1))))
            else String ch (json.appendStringLoop r (json.Copy (Z.to_nat (size - 1))))))
    = true).
  { cbv zeta. destruct (byte_val ch <? utf8.RuneSelf) eqn:Hb.
    - rewrite forallb_bytes_app, (IH json.Fresh I), andb_true_r.
      destruct (json.htmlSafe (byte_val ch)) eqn:Hs; [|apply escapeByte_safe].
      cbn [bytes_of_string forallb]. rewrite andb_true_r.
      unfold json.htmlSafe in Hs. unfold safeByte. lia.
    - assert (Hhigh : 128 <= byte_val ch) by (unfold utf8.RuneSelf in Hb; lia).
      cbn [bytes_of_string]. rewrite firstn_cons. cbn [map].
      pose proof (DecodeRuneInString_continuation (byte_val ch)
                    (map byte_val (take 3 (bytes_of_string r)))) as Hcont.
      pose proof (DecodeRuneInString_size
                    (byte_val ch :: map byte_val (take 3 (bytes_of_string r)))) as Hsize.
      destruct (utf8.DecodeRuneInString _) as [rune size]. cbn [snd] in Hcont, Hsize.
      destruct ((rune =? utf8.RuneError) && (size =? 1)).
      + rewrite forallb_bytes_app, (IH json.Fresh I). done.
      + destruct ((rune =? 8232) || (rune =? 8233)).
        * rewrite forallb_bytes_app. cbn [bytes_of_string forallb].
          by rewrite hex_safe, (IH (json.Drop _) I).
        * cbn [bytes_of_string forallb]. rewrite (high_safe ch Hhigh).
          apply IH. cbn [scanReady].
          rewrite List.firstn_map, take_take, Forall_map in Hcont.
          rewrite Nat.min_l in Hcont by lia. exact Hcont. }
  destruct st as [|[|n]|[|n]]; try exact Hfresh.
  - cbn [json.appendStringLoop bytes_of_string forallb].
    cbn [scanReady bytes_of_string] in Hst. rewrite firstn_cons in Hst.
    apply Forall_cons in Hst as [Hch Hr].
    rewrite (high_safe ch Hch). by apply IH.
  - cbn [json.appendStringLoop]. by apply IH.
Qed.

Lemma Join_safe (l : list string) :
  Forall (fun s => forallb safeByte (bytes_of_string s) = true) l ->
  forallb safeByte (bytes_of_string (Join l ",")) = true.
Proof.
  induction 1 as [|s l Hs _ IH]; [done|].
  destruct l as [|s' l]; [done|].
  change (Join (s :: s' :: l) ",") with (s +:+ "," +:+ Join (s' :: l) ",").
  by rewrite !forallb_bytes_app, Hs, IH.
Qed.

Lemma encodeSlice_safe {A : Type} (enc : A -> string) (v : slice A) :
  (forall x, forallb safeByte (bytes_of_string (enc x)) = true) ->
  forallb safeByte (bytes_of_string (json.encodeSlice enc v)) = true.
Proof.
  intros Henc. destruct v as [l|]; [|done]. unfold json.encodeSlice.
  rewrite !forallb_bytes_app, Join_safe; [done|].
  apply Forall_map, Forall_forall. intros x _. apply Henc.
Qed.

Lemma appendString_safe (s : string) :
  forallb safeByte (bytes_of_string (json.appendString s)) = true.
Proof.
  unfold json.appendString.
  change (String dquote (json.appendStringLoop s json.Fresh) +:+ String dquote "")
    with (String dquote (json.appendStringLoop s json.Fresh +:+ String dquote "")).
  cbn [bytes_of_string forallb].
  by rewrite forallb_bytes_app, (appendStringLoop_safe s json.Fresh I).
Qed.

Lemma FormatInt_safe (n : Z) :
  forallb safeByte (bytes_of_string (strconv.FormatInt n)) = true.
Proof.
  pose proof (FormatInt_numBytes n) as H.
  apply forallb_forall. intros ch Hin. rewrite forallb_forall in H.
  specialize (H ch Hin). unfold numByte, isDigit in H. unfold safeByte.
  destruct (Ascii.eqb ch "-") eqn:E.
  - apply Ascii.eqb_eq in E. by rewrite E.
  - rewrite orb_false_r in H. lia.
Qed.

(** The byte 127 is none of the bytes the encoder escapes: a name that
    holds it is written with it. *)
Example appendString_writes_byte_127 :
  json.appendString (String "A" (String "127" "B"))
  = String dquote (String "A" (String "127" ("B" +:+ String dquote EmptyString)))
  /\ safeByte "127" = true.
Proof. by vm_compute. Qed.

(** X17: a 200 of a database handler has a body without any byte below 32
    (so without a raw line feed, carriage return or tab) and without the
    characters [<], [>] and [&], whatever bytes the names from the database
    contain, bytes that are no valid UTF-8 included: [json.Marshal] escapes
    all of these.  The byte 127 is not among them: it is written as it is. *)
Theorem X17_json_bodies_escape_C0_and_html_bytes (env : Env) (r : http.Request) :
  let safe (h : main.HandlerFunc) :=
    forallb safeByte
      (bytes_of_string (http.body (value (h http.newResponseWriter r)))) = true in
  (http.status (value (main.freeClassHandler env http.newResponseWriter r)) = 200 ->
   safe (main.freeClassHandler env))
  /\ safe (main.freeSlotHandler env)
  /\ safe (main.dayTimetableHandler env).
Proof.
  intros safe. subst safe. cbv beta. split; [|split].
  - destruct (strconv.Atoi (url.Values_Get (http.Query r) "slot")) as [slot|e] eqn:H.
    + destruct (freeClassHandler_ok env r slot H) as [(_ & _ & ->) _]. intros _.
      apply encodeSlice_safe, appendString_safe.
    + destruct (freeClassHandler_err env r e H) as [(-> & _) _]. done.
  - destruct (freeSlotHandler_ok env r) as [(_ & _ & ->) _].
    apply encodeSlice_safe, FormatInt_safe.
  - destruct (dayTimetableHandler_ok env r) as [(_ & _ & ->) _].
    apply encodeSlice_safe, appendString_safe.
Qed.

(** ** The access token *)

Lemma requestGraphAPI_sent
    (env : Env) (accessToken endpoint : string) (sent : http.ClientRequest) :
  EvDo sent ∈ events (main.requestGraphAPI env accessToken endpoint) ->
  http.reqHeader sent !! "Authorization" = Some ["Bearer " +:+ accessToken]
  /\ http.reqHeader sent !! "Accept" = Some ["application/json"].
Proof.
  intros Hin.
  destruct (NewRequest env "GET" (graphURL endpoint)) as [req|err] eqn:H.
  - rewrite (requestGraphAPI_events env accessToken endpoint req H) in Hin.
    apply list_elem_of_singleton in Hin as [= ->].
    unfold withBearer, http.Request_Header_Set. simpl. split.
    + rewrite lookup_insert_ne by done. apply lookup_insert_eq.
    + apply lookup_insert_eq.
  - destruct (requestGraphAPI_no_request env accessToken endpoint err H) as [_ He].
    rewrite He in Hin. by apply elem_of_nil in Hin.
Qed.

(** X18: every request the exchange handler sends to the Graph API is made
    after the code was exchanged, and carries the access token of that very
    exchange as its bearer token and asks for JSON; without a token no
    request is sent. *)
Theorem X18_graph_requests_carry_the_exchanged_token
    (env : Env) (c : oauth2.Config) (r : http.Request) (sent : http.ClientRequest) :
  EvDo sent ∈ events (main.oauthExchangeHandler env c http.newResponseWriter r) ->
  exists token rest,
    Exchange env c (http.Context r) (url.Values_Get (http.Query r) "code") = Ok token
    /\ events (main.oauthExchangeHandler env c http.newResponseWriter r)
       = EvExchange (http.Context r) (url.Values_Get (http.Query r) "code") :: rest
    /\ EvDo sent ∈ rest
    /\ http.reqHeader sent !! "Authorization"
       = Some ["Bearer " +:+ oauth2.AccessToken token]
    /\ http.reqHeader sent !! "Accept" = Some ["application/json"].
Proof.
  set (code := url.Values_Get (http.Query r) "code").
  set (m := main.oauthExchangeHandler env c http.newResponseWriter r).
  intros Hin.
  destruct (Exchange env c (http.Context r) code) as [token|err] eqn:H.
  - assert (Hsent : forall rest,
              events m = EvExchange (http.Context r) code :: rest ->
              (forall e, e ∈ rest ->
                 e ∈ events (main.requestGraphAPI env (oauth2.AccessToken token) "me")
                 \/ e ∈ events (main.requestGraphAPI env (oauth2.AccessToken token)
                                  "organization")
                 \/ isLog e = true) ->
              exists token' rest',
                @Ok error oauth2.Token token = Ok token'
                /\ events m = EvExchange (http.Context r) code :: rest'
                /\ EvDo sent ∈ rest'
                /\ http.reqHeader sent !! "Authorization"
                   = Some ["Bearer " +:+ oauth2.AccessToken token']
                /\ http.reqHeader sent !! "Accept" = Some ["application/json"]).
    { intros rest He Hrest. exists token, rest. split; [done|]. split; [done|].
      rewrite He in Hin. apply elem_of_cons in Hin as [[=]|Hin].
      split; [done|].
      destruct (Hrest _ Hin) as [Hg | [Hg | Hl]]; [| |done];
        by apply requestGraphAPI_sent in Hg. }
    destruct (value (main.requestGraphAPI env (oauth2.AccessToken token) "me"))
      as [profile|err] eqn:Hme.
    + destruct (value (main.requestGraphAPI env (oauth2.AccessToken token)
                         "organization")) as [org|err] eqn:Horg.
      * destruct (exchange_succeeded env c r token profile org H Hme Horg) as [_ He].
        apply (Hsent _ He). intros e. rewrite elem_of_app. tauto.
      * destruct (organization_failed env c r token profile err H Hme Horg)
          as [_ He].
        apply (Hsent _ He). intros e. rewrite !elem_of_app, list_elem_of_singleton.
        intros [?|[?|Hlog]]; [tauto | tauto | subst e; tauto].
    + destruct (profile_failed env c r token err H Hme) as [_ He].
      apply (Hsent _ He). intros e. rewrite !elem_of_app, list_elem_of_singleton.
      intros [?|Hlog]; [tauto | subst e; tauto].
  - destruct (exchange_failed env c r err H) as [_ He]. fold m code in He.
    rewrite He in Hin. rewrite !elem_of_cons, elem_of_nil in Hin.
    destruct Hin as [[=]|[[=]|[]]].
Qed.

Lemma X18_witness :
  exists token,
    Exchange Sample.env Sample.oauthConfig 0 "good" = Ok token
    /\ http.reqHeader
         (withBearer {| http.reqMethod := "GET";
                        http.reqURL := "https://graph.microsoft.com/v1.0/organization";
                        http.reqHeader := ∅ |} "token-1") !! "Authorization"
       = Some ["Bearer " +:+ oauth2.AccessToken token].
Proof.
  assert (Hin : EvDo (withBearer
                        {| http.reqMethod := "GET";
                           http.reqURL := "https://graph.microsoft.com/v1.0/organization";
                           http.reqHeader := ∅ |} "token-1")
                ∈ events (main.oauthExchangeHandler Sample.env Sample.oauthConfig
                            http.newResponseWriter Sample.exchange_good)).
  { change (events (main.oauthExchangeHandler Sample.env Sample.oauthConfig
                      http.newResponseWriter Sample.exchange_good))
      with [EvExchange 0 "good";
            EvDo (withBearer {| http.reqMethod := "GET";
                                http.reqURL := "https://graph.microsoft.com/v1.0/me";
                                http.reqHeader := ∅ |} "token-1");
            EvDo (withBearer {| http.reqMethod := "GET";
                                http.reqURL := "https://graph.microsoft.com/v1.0/organization";
                                http.reqHeader := ∅ |} "token-1")].
    rewrite !elem_of_cons. right; right; left. reflexivity. }
  destruct (X18_graph_requests_carry_the_exchanged_token Sample.env
              Sample.oauthConfig Sample.exchange_good _ Hin)
    as (token & rest & Htok & _ & _ & Hauth & _).
  exists token. split; [exact Htok | exact Hauth].
Defined.
